(** * prompt-processor: extraction, relevance gate and rule-based refinement

    A shallow embedding of [input_processor.py], [refinement_engine.py],
    [prompt_template.py], the first stages of [main_system.py], the
    configuration processor of [config_processor.py] and the terminal
    readers of [interactive_refinement.py], followed by the properties of
    the pipeline stated over it.

    Conventions of the embedding.
    - A Python [str] is a Rocq [string] holding its UTF-8 bytes.  [lower],
      [upper], [strip], [split] and [len] are exact on ASCII text; a byte
      above 127 is kept as it is, has no case and is not white space.
    - A Python [dict] with string keys is an association list in insertion
      order; a key that is absent from a result dictionary is [None] in the
      corresponding record field.
    - The file system and the optional decoding libraries (PIL/pytesseract,
      PyPDF2, python-docx) are the fields of a [World]; a call that may raise
      returns an [Exc], whose [Raise] carries [str(e)].
    - [uuid.uuid4()] and [datetime.now()] are read from an [Entropy]. *)

From Stdlib Require Import String Ascii List ZArith Lia Bool.
From Stdlib Require Import Numbers.DecimalString.
From Stdlib Require Import Floats.PrimFloat Floats.SpecFloat Floats.FloatOps.
Import ListNotations.

Set Warnings "-register-all".
Open Scope list_scope.
Open Scope string_scope.

(** ** Python string primitives *)

Module Py.

Definition nl : string := String (ascii_of_nat 10) "".

Definition chr (n : nat) : string := String (ascii_of_nat n) "".

(** [str.isspace] on one ASCII character: TAB..CR, FS..US and the blank. *)
Definition isspace (c : ascii) : bool :=
  let n := nat_of_ascii c in
  (((9 <=? n) && (n <=? 13)) || ((28 <=? n) && (n <=? 32)))%nat.

Definition lower_char (c : ascii) : ascii :=
  let n := nat_of_ascii c in
  if ((65 <=? n) && (n <=? 90))%nat then ascii_of_nat (n + 32) else c.

Definition upper_char (c : ascii) : ascii :=
  let n := nat_of_ascii c in
  if ((97 <=? n) && (n <=? 122))%nat then ascii_of_nat (n - 32) else c.

Fixpoint map_chars (f : ascii -> ascii) (s : string) : string :=
  match s with
  | EmptyString => EmptyString
  | String c t => String (f c) (map_chars f t)
  end.

Definition lower : string -> string := map_chars lower_char.
Definition upper : string -> string := map_chars upper_char.

Definition is_empty (s : string) : bool :=
  match s with EmptyString => true | _ => false end.

Fixpoint lstrip (s : string) : string :=
  match s with
  | EmptyString => EmptyString
  | String c t => if isspace c then lstrip t else s
  end.

Fixpoint rstrip (s : string) : string :=
  match s with
  | EmptyString => EmptyString
  | String c t =>
      let t' := rstrip t in
      if isspace c && is_empty t' then EmptyString else String c t'
  end.

Definition strip (s : string) : string := rstrip (lstrip s).

(** [s.split()]: the maximal runs of characters that are not white space.
    [cur] is the word being read. *)
Fixpoint split_from (cur : string) (s : string) : list string :=
  match s with
  | EmptyString => if is_empty cur then [] else [cur]
  | String c t =>
      if isspace c
      then (if is_empty cur then split_from "" t else cur :: split_from "" t)
      else split_from (cur ++ String c "") t
  end.

Definition split (s : string) : list string := split_from "" s.

(** [needle in hay] on strings. *)
Fixpoint contains (needle hay : string) : bool :=
  String.prefix needle hay ||
  match hay with
  | EmptyString => false
  | String _ t => contains needle t
  end.

(** [any(x in hay for x in xs)] *)
Definition any_in (xs : list string) (hay : string) : bool :=
  existsb (fun x => contains x hay) xs.

(** [x in xs] on a list of strings. *)
Definition mem (x : string) (xs : list string) : bool :=
  existsb (String.eqb x) xs.

(** [s[:n]] *)
Definition take (n : nat) (s : string) : string := String.substring 0 n s.

(** [sep.join(xs)] *)
Definition join (sep : string) (xs : list string) : string :=
  String.concat sep xs.

(** [str(n)] for an integer. *)
Definition str_of_Z (n : Z) : string := NilZero.string_of_int (Z.to_int n).

Definition hex_digit (n : nat) : string :=
  String.substring n 1 "0123456789abcdef".

Definition quote1 : string := "'".
Definition quote2 : string := chr 34.
Definition backslash : string := chr 92.

(** One character of [repr(s)], [q] being the quote chosen for [s]. *)
Definition repr_char (q : string) (c : ascii) : string :=
  let n := nat_of_ascii c in
  let s := String c "" in
  if (s =? q) || (s =? backslash) then backslash ++ s
  else if (n =? 9)%nat then backslash ++ "t"
  else if (n =? 10)%nat then backslash ++ "n"
  else if (n =? 13)%nat then backslash ++ "r"
  else if ((n <? 32) || (n =? 127))%nat
       then backslash ++ "x" ++ hex_digit (n / 16) ++ hex_digit (n mod 16)
  else s.

Fixpoint repr_chars (q : string) (s : string) : string :=
  match s with
  | EmptyString => EmptyString
  | String c t => repr_char q c ++ repr_chars q t
  end.

(** [repr(s)] for a string: single quotes unless [s] has a single quote and
    no double quote. *)
Definition repr_str (s : string) : string :=
  let q := if contains quote1 s && negb (contains quote2 s)
           then quote2 else quote1 in
  q ++ repr_chars q s ++ q.

(** The values stored in the metadata dictionaries. *)
Inductive PyVal : Type :=
| VStr (s : string)
| VInt (n : Z)
| VNone
| VTuple (items : list PyVal)
| VList (items : list PyVal).

Fixpoint repr (v : PyVal) : string :=
  match v with
  | VStr s => repr_str s
  | VInt n => str_of_Z n
  | VNone => "None"
  | VTuple items =>
      match items with
      | [x] => "(" ++ repr x ++ ",)"
      | _ => "(" ++ join ", " (map repr items) ++ ")"
      end
  | VList items => "[" ++ join ", " (map repr items) ++ "]"
  end.

(** [f"{v}"], that is [str(v)]. *)
Definition format (v : PyVal) : string :=
  match v with
  | VStr s => s
  | _ => repr v
  end.

(** Whether [hash(v)] returns: a list has no hash, nor has a tuple that
    holds one. *)
Fixpoint hashable (v : PyVal) : bool :=
  match v with
  | VList _ => false
  | VTuple items => forallb hashable items
  | _ => true
  end.

Definition Dict : Type := list (string * PyVal).

(** [d.get(k, default)] *)
Fixpoint get (d : Dict) (k : string) (default : PyVal) : PyVal :=
  match d with
  | [] => default
  | (k', v) :: rest => if k' =? k then v else get rest k default
  end.

(** The outcome of a call that may raise: [Raise msg] carries [str(e)]. *)
Inductive Exc (A : Type) : Type :=
| Return (a : A)
| Raise (msg : string).
Arguments Return {A} a.
Arguments Raise {A} msg.

Definition bind {A B : Type} (m : Exc A) (k : A -> Exc B) : Exc B :=
  match m with
  | Return a => k a
  | Raise msg => Raise msg
  end.

(** [try: return body  except Exception as e: return handler(e)] *)
Definition try_except {A : Type} (body : Exc A) (handler : string -> A) : A :=
  match body with
  | Return a => a
  | Raise msg => handler msg
  end.

End Py.

Notation "x <- m ;; k" := (Py.bind m (fun x => k))
  (at level 61, m at next level, right associativity).

Import Py.

(** ** input_processor.py *)

(** The dictionary returned by every extraction operation.  The keys
    ['error'] and ['individual_results'] are present in some results only. *)
Inductive ProcessedInput : Type := mkProcessedInput {
  type : string;
  content : string;
  metadata : Dict;
  success : bool;
  error : option string;
  individual_results : option (list ProcessedInput)
}.

(** What [Image.open] and [pytesseract.image_to_string] give for an image. *)
Record OcrImage : Type := {
  image_to_string : string;
  img_size : Z * Z;
  img_format : option string
}.

(** What [Document(path)] gives: paragraph texts, and the cell texts of
    every row of every table. *)
Record DocxDocument : Type := {
  paragraphs : list string;
  tables : list (list (list string))
}.

(** The environment of the processor.  A backend is [None] when its import
    failed at load time ([Image is None or pytesseract is None],
    [PyPDF2 is None], [Document is None]). *)
Record World : Type := {
  path_exists : string -> bool;                 (* os.path.exists *)
  path_suffix : string -> string;               (* Path(p).suffix *)
  path_basename : string -> string;             (* os.path.basename *)
  read_text : string -> Exc string;             (* open(p, 'r').read() *)
  ocr_backend : option (string -> Exc OcrImage);
  pdf_backend : option (string -> Exc (list (Exc string)));
                                    (* the pages, and each page.extract_text() *)
  docx_backend : option (string -> Exc DocxDocument)
}.

(** [self.supported_formats] *)
Definition supported_formats : list (string * list string) :=
  [ ("text", [".txt"; ".md"]);
    ("image", [".jpg"; ".jpeg"; ".png"; ".bmp"; ".gif"]);
    ("pdf", [".pdf"]);
    ("docx", [".docx"]) ].

(** [self.supported_formats[k]] for the four keys the class defines. *)
Fixpoint formats_of (table : list (string * list string)) (k : string)
  : list string :=
  match table with
  | [] => []
  | (k', exts) :: rest => if (k' =? k)%string then exts else formats_of rest k
  end.

(** The dictionary every failing branch returns. *)
Definition error_result (msg : string) : ProcessedInput :=
  {| type := "error"; content := ""; metadata := [];
     success := false; error := Some msg; individual_results := None |}.

Definition len (s : string) : PyVal := VInt (Z.of_nat (String.length s)).

Definition process_text (text : string) : ProcessedInput :=
  {| type := "text";
     content := strip text;
     metadata := [ ("length", len text); ("source", VStr "direct_input") ];
     success := true; error := None; individual_results := None |}.

(** [text += page.extract_text() + "\n"] over the pages. *)
Fixpoint extract_pages (pages : list (Exc string)) (text : string)
  : Exc string :=
  match pages with
  | [] => Return text
  | page :: rest => t <- page ;; extract_pages rest (text ++ t ++ nl)
  end.

(** The two nested loops that fill [table_text]. *)
Definition table_rows (tbls : list (list (list string))) : list string :=
  fold_left
    (fun table_text table =>
       fold_left (fun table_text row => table_text ++ [join " | " row])%list
                 table table_text)
    tbls [].

Section InputProcessor.

Variable w : World.

Definition process_text_file (file_path : string) : ProcessedInput :=
  try_except
    (content <- read_text w file_path ;;
     Return
       {| type := "text";
          content := strip content;
          metadata := [ ("filename", VStr (path_basename w file_path));
                        ("length", len content);
                        ("source", VStr "file") ];
          success := true; error := None; individual_results := None |})
    (fun e => error_result e).

Definition process_image (image_path : string) : ProcessedInput :=
  match ocr_backend w with
  | None => error_result "PIL or pytesseract not installed"
  | Some ocr =>
      try_except
        (img <- ocr image_path ;;
         Return
           {| type := "image";
              content := strip (image_to_string img);
              metadata :=
                [ ("filename", VStr (path_basename w image_path));
                  ("size", VTuple [VInt (fst (img_size img));
                                   VInt (snd (img_size img))]);
                  ("format", match img_format img with
                             | Some f => VStr f
                             | None => VNone
                             end);
                  ("source", VStr "ocr") ];
              success := true; error := None; individual_results := None |})
        (fun e => error_result ("Image processing error: " ++ e))
  end.

Definition process_pdf (pdf_path : string) : ProcessedInput :=
  match pdf_backend w with
  | None => error_result "PyPDF2 not installed"
  | Some reader =>
      try_except
        (pages <- reader pdf_path ;;
         let num_pages := VInt (Z.of_nat (List.length pages)) in
         text <- extract_pages pages "" ;;
         Return
           {| type := "pdf";
              content := strip text;
              metadata := [ ("filename", VStr (path_basename w pdf_path));
                            ("num_pages", num_pages);
                            ("length", len text);
                            ("source", VStr "pdf_extraction") ];
              success := true; error := None; individual_results := None |})
        (fun e => error_result ("PDF processing error: " ++ e))
  end.

Definition process_docx (docx_path : string) : ProcessedInput :=
  match docx_backend w with
  | None => error_result "python-docx not installed"
  | Some document =>
      try_except
        (doc <- document docx_path ;;
         let text := join nl (paragraphs doc) in
         let table_text := table_rows (tables doc) in
         let text :=
           match table_text with
           | [] => text
           | _ => text ++ nl ++ nl ++ "Tables:" ++ nl ++ join nl table_text
           end in
         Return
           {| type := "docx";
              content := strip text;
              metadata :=
                [ ("filename", VStr (path_basename w docx_path));
                  ("num_paragraphs",
                   VInt (Z.of_nat (List.length (paragraphs doc))));
                  ("num_tables", VInt (Z.of_nat (List.length (tables doc))));
                  ("length", len text);
                  ("source", VStr "docx_extraction") ];
              success := true; error := None; individual_results := None |})
        (fun e => error_result ("DOCX processing error: " ++ e))
  end.

Definition process_input (input_path : string) : ProcessedInput :=
  if negb (path_exists w input_path) then
    if negb (any_in ["."; "/"; backslash] input_path)
    then process_text input_path
    else error_result "File not found"
  else
    let file_ext := lower (path_suffix w input_path) in
    if mem file_ext (formats_of supported_formats "text")
    then process_text_file input_path
    else if mem file_ext (formats_of supported_formats "image")
    then process_image input_path
    else if mem file_ext (formats_of supported_formats "pdf")
    then process_pdf input_path
    else if mem file_ext (formats_of supported_formats "docx")
    then process_docx input_path
    else error_result ("Unsupported file format: " ++ file_ext).

(** The four accumulators of the loop of [process_multiple_inputs]. *)
Record Combined : Type := {
  results : list ProcessedInput;
  combined_content : list string;
  sources : list PyVal;
  types : list PyVal
}.

Definition combine_step (acc : Combined) (input_path : string) : Combined :=
  let result := process_input input_path in
  let results' := (results acc ++ [result])%list in
  if success result then
    let header :=
      "--- Source: "
        ++ format (get (metadata result) "filename" (VStr "text input"))
        ++ " ---" in
    {| results := results';
       combined_content :=
         (combined_content acc ++ [ header ] ++ [ content result ])%list;
       sources :=
         (sources acc
            ++ [ get (metadata result) "filename" (VStr "text") ])%list;
       types := (types acc ++ [ VStr (type result) ])%list |}
  else
    {| results := results';
       combined_content := combined_content acc;
       sources := sources acc;
       types := types acc |}.

Definition process_multiple_inputs (input_paths : list string)
  : ProcessedInput :=
  let acc :=
    fold_left combine_step input_paths
      {| results := []; combined_content := []; sources := []; types := [] |}
  in
  {| type := "mixed";
     content := join (nl ++ nl) (combined_content acc);
     metadata := [ ("sources", VList (sources acc));
                   ("types", VList (types acc)) ];
     success := forallb success (results acc);
     error := None;
     individual_results := Some (results acc) |}.

End InputProcessor.

(** ** prompt_template.py *)

Inductive PriorityLevel : Type := CRITICAL | HIGH | MEDIUM | LOW.

Inductive InputType : Type := TEXT | IMAGE | PDF | DOCX | MIXED.

(** [PriorityLevel.value] *)
Definition priority_value (p : PriorityLevel) : string :=
  match p with
  | CRITICAL => "critical"
  | HIGH => "high"
  | MEDIUM => "medium"
  | LOW => "low"
  end.

(** [InputType.value] *)
Definition input_type_value (t : InputType) : string :=
  match t with
  | TEXT => "text"
  | IMAGE => "image"
  | PDF => "pdf"
  | DOCX => "docx"
  | MIXED => "mixed"
  end.

Record Requirement : Type := {
  description : string;
  priority : PriorityLevel;
  category : string
}.

(** The field [description] of the class is [constraint_description] here. *)
Record TechnicalConstraint : Type := {
  constraint_type : string;
  constraint_description : string;
  is_mandatory : bool
}.

Record RefinedPrompt : Type := {
  prompt_id : string;
  timestamp : string;
  input_types : list InputType;
  core_intent : string;
  detailed_description : string;
  domain : string;
  functional_requirements : list Requirement;
  technical_constraints : list TechnicalConstraint;
  expected_outputs : list string;
  deliverable_format : option string;
  background_context : option string;
  success_criteria : list string;
  additional_notes : option string;
  confidence_score : float;
  ambiguities : list string;
  assumptions_made : list string
}.

(** The hundredths nearest to [n * 2^e], ties to the even one. *)
Definition round_half_even (n e : Z) : Z :=
  if (0 <=? e)%Z then (n * 2 ^ e)%Z
  else
    let d := (2 ^ (- e))%Z in
    let q := (n / d)%Z in
    let r := (n mod d)%Z in
    if ((d <? 2 * r) || ((2 * r =? d) && Z.odd q))%Z then (q + 1)%Z else q.

Definition two_digits (n : Z) : string :=
  str_of_Z (n / 10) ++ str_of_Z (n mod 10).

(** [f"{x:.2f}"]: the exact binary value of [x], correctly rounded to two
    decimals. *)
Definition format_2f (x : float) : string :=
  let sign (s : bool) : string := if s then "-" else "" in
  match Prim2SF x with
  | S754_zero s => sign s ++ "0.00"
  | S754_infinity s => sign s ++ "inf"
  | S754_nan => "nan"
  | S754_finite s m e =>
      let h := round_half_even (Z.pos m * 100) e in
      sign s ++ str_of_Z (h / 100) ++ "." ++ two_digits (h mod 100)
  end.

(** The heading of the ambiguities section, with the warning sign
    (U+26A0 U+FE0F) of the source. *)
Definition ambiguities_heading : string := "## ⚠️ Ambiguities Detected".

(** [for x in items: md += f"- {x}\n"] *)
Definition add_bullets (md : string) (items : list string) : string :=
  fold_left (fun md item => md ++ "- " ++ item ++ nl) items md.

Definition to_markdown (self : RefinedPrompt) : string :=
  let md :=
    "# Refined Prompt: " ++ prompt_id self ++ nl
    ++ nl
    ++ "## Core Intent" ++ nl
    ++ "**Domain:** " ++ domain self ++ nl
    ++ "**Summary:** " ++ core_intent self ++ nl
    ++ nl
    ++ detailed_description self ++ nl
    ++ nl
    ++ "## Functional Requirements" ++ nl in
  let md :=
    fold_left
      (fun md req =>
         let priority := priority_value (priority req) in
         md ++ "- [" ++ upper priority ++ "] **" ++ category req ++ "**: "
            ++ description req ++ nl)
      (functional_requirements self) md in
  let md :=
    match technical_constraints self with
    | [] => md
    | _ =>
        let md := md ++ nl ++ "## Technical Constraints" ++ nl in
        fold_left
          (fun md constraint =>
             let mandatory :=
               if is_mandatory constraint then "MANDATORY" else "PREFERRED" in
             md ++ "- [" ++ mandatory ++ "] **" ++ constraint_type constraint
                ++ "**: " ++ constraint_description constraint ++ nl)
          (technical_constraints self) md
    end in
  let md :=
    match expected_outputs self with
    | [] => md
    | _ =>
        let md := md ++ nl ++ "## Expected Outputs" ++ nl in
        let md := add_bullets md (expected_outputs self) in
        match deliverable_format self with
        | None => md
        | Some fmt =>
            if is_empty fmt then md
            else md ++ nl ++ "**Format:** " ++ fmt ++ nl
        end
    end in
  let md :=
    match success_criteria self with
    | [] => md
    | _ => add_bullets (md ++ nl ++ "## Success Criteria" ++ nl)
                       (success_criteria self)
    end in
  let md :=
    match ambiguities self with
    | [] => md
    | _ => add_bullets (md ++ nl ++ ambiguities_heading ++ nl)
                       (ambiguities self)
    end in
  let md :=
    match assumptions_made self with
    | [] => md
    | _ => add_bullets (md ++ nl ++ "## Assumptions Made" ++ nl)
                       (assumptions_made self)
    end in
  md ++ nl ++ "---" ++ nl
     ++ "*Confidence Score: " ++ format_2f (confidence_score self)
     ++ " | Generated: " ++ timestamp self ++ "*" ++ nl.

(** ** refinement_engine.py *)

(** [self.relevance_keywords] *)
Definition relevance_keywords : list string :=
  [ "build"; "create"; "develop"; "design"; "implement"; "make";
    "generate"; "analyze"; "calculate"; "write"; "produce";
    "system"; "application"; "app"; "software"; "tool"; "solution";
    "website"; "dashboard"; "platform"; "service"; "api" ].

Definition is_relevant_prompt (content : string) : bool * string :=
  let content_lower := lower content in
  if (List.length (split content) <? 5)%nat
  then (false, "Input too short (less than 5 words)")
  else
    let greetings := [ "hello"; "hi"; "hey"; "greetings" ] in
    if any_in greetings content_lower
       && (List.length (split content) <? 10)%nat
    then (false, "Input appears to be a greeting")
    else
      let spam_patterns :=
        [ "buy now"; "click here"; "limited offer"; "act now" ] in
      if any_in spam_patterns content_lower
      then (false, "Input appears to be spam")
      else
        let has_keywords := any_in relevance_keywords content_lower in
        if negb has_keywords
        then (false, "Input does not contain task-related keywords")
        else (true, "Input appears relevant").

(** The values [uuid.uuid4().hex] and [datetime.now().isoformat()] take
    during one refinement. *)
Record Entropy : Type := {
  uuid4_hex : string;
  now_isoformat : string
}.

(** 0.3, the binary64 nearest to three tenths. *)
Definition fallback_confidence : float := 0x1.3333333333333p-2%float.

Definition _fallback_extraction
  (e : Entropy) (raw_content : string) (input_metadata : Dict)
  : RefinedPrompt :=
  let content_lower := lower raw_content in
  let domain :=
    if any_in [ "app"; "software"; "code"; "program"; "system" ] content_lower
    then "software_development"
    else if any_in [ "design"; "ui"; "ux"; "interface"; "mockup" ]
                   content_lower
    then "product_design"
    else if any_in [ "analyze"; "data"; "statistics"; "report" ] content_lower
    then "data_analysis"
    else "other" in
  let requirements : list Requirement := [] in
  let requirements :=
    if contains "authentication" content_lower
       || contains "login" content_lower
    then (requirements
            ++ [ {| description := "User authentication";
                    priority := CRITICAL;
                    category := "authentication" |} ])%list
    else requirements in
  let requirements :=
    if contains "database" content_lower
       || contains "data storage" content_lower
    then (requirements
            ++ [ {| description := "Data persistence";
                    priority := HIGH;
                    category := "data" |} ])%list
    else requirements in
  {| prompt_id := "PROMPT_" ++ upper (take 8 (uuid4_hex e));
     timestamp := now_isoformat e;
     input_types := [ TEXT ];
     core_intent :=
       if (100 <? String.length raw_content)%nat
       then take 100 raw_content ++ "..."
       else raw_content;
     detailed_description := raw_content;
     domain := domain;
     functional_requirements := requirements;
     technical_constraints := [];
     expected_outputs := [];
     deliverable_format := None;
     background_context := None;
     success_criteria := [];
     additional_notes := None;
     confidence_score := fallback_confidence;
     ambiguities := [ "Automatic extraction - may be incomplete" ];
     assumptions_made := [ "Used rule-based extraction" ] |}.

(** [input_type_map] of [_create_refined_prompt]. *)
Definition input_type_map : list (string * InputType) :=
  [ ("text", TEXT); ("image", IMAGE); ("pdf", PDF); ("docx", DOCX);
    ("mixed", MIXED) ].

Fixpoint input_type_map_get
  (m : list (string * InputType)) (k : string) (default : InputType)
  : InputType :=
  match m with
  | [] => default
  | (k', t) :: rest =>
      if (k' =? k)%string then t else input_type_map_get rest k default
  end.

(** The first statement of [_create_refined_prompt], which derives
    [input_types] from the metadata:
    [[input_type_map.get(input_metadata.get('type', 'text'), InputType.TEXT)]].
    A declared type that is a string is looked up; any other hashable value
    is no key of the map; on an unhashable value the lookup raises. *)
Definition _create_refined_prompt_input_types (input_metadata : Dict)
  : Exc (list InputType) :=
  match get input_metadata "type" (VStr "text") with
  | VStr declared => Return [ input_type_map_get input_type_map declared TEXT ]
  | v => if hashable v then Return [ TEXT ]
         else Raise "unhashable type: 'list'"
  end.

Definition jkey (k : string) : string := quote2 ++ k ++ quote2.

(** The fixed instructions that end [analysis_prompt]. *)
Definition json_format_instructions : string :=
  join nl
    [ "Extract information into this JSON format:";
      "";
      "{";
      "  " ++ jkey "core_intent" ++ ": " ++ jkey "Single sentence summary"
        ++ ",";
      "  " ++ jkey "detailed_description" ++ ": "
        ++ jkey "2-3 sentence explanation" ++ ",";
      "  " ++ jkey "domain" ++ ": "
        ++ jkey ("software_development/product_design/data_analysis/"
                 ++ "content_creation/automation/other") ++ ",";
      "  " ++ jkey "functional_requirements" ++ ": [";
      "    {";
      "      " ++ jkey "description" ++ ": " ++ jkey "Requirement description"
        ++ ",";
      "      " ++ jkey "priority" ++ ": " ++ jkey "critical/high/medium/low"
        ++ ",";
      "      " ++ jkey "category" ++ ": "
        ++ jkey "Type (e.g., authentication, ui, performance)";
      "    }";
      "  ],";
      "  " ++ jkey "technical_constraints" ++ ": [";
      "    {";
      "      " ++ jkey "constraint_type" ++ ": "
        ++ jkey "platform/technology/performance/security/other" ++ ",";
      "      " ++ jkey "description" ++ ": " ++ jkey "Constraint description"
        ++ ",";
      "      " ++ jkey "is_mandatory" ++ ": true/false";
      "    }";
      "  ],";
      "  " ++ jkey "expected_outputs" ++ ": [" ++ jkey "List of deliverables"
        ++ "],";
      "  " ++ jkey "deliverable_format" ++ ": "
        ++ jkey "code/document/design/analysis/other" ++ ",";
      "  " ++ jkey "background_context" ++ ": "
        ++ jkey "Additional context or null" ++ ",";
      "  " ++ jkey "success_criteria" ++ ": [" ++ jkey "How to measure success"
        ++ "],";
      "  " ++ jkey "confidence_score" ++ ": 0.0-1.0,";
      "  " ++ jkey "ambiguities" ++ ": [" ++ jkey "Unclear aspects" ++ "],";
      "  " ++ jkey "assumptions_made" ++ ": [" ++ jkey "Assumptions made"
        ++ "]";
      "}";
      "";
      "Return ONLY the JSON, no other text." ].

Section Refinement.

(** [json.dumps(d, indent=2)].  Every [PyVal] is serialisable, so the call
    returns for every [Dict]. *)
Variable json_dumps : Dict -> string.

Definition analysis_prompt (raw_content : string) (input_metadata : Dict)
  : string :=
  "You are a prompt refinement expert. Analyze the following input and "
  ++ "extract structured information." ++ nl
  ++ nl
  ++ "INPUT CONTENT:" ++ nl
  ++ raw_content ++ nl
  ++ nl
  ++ "INPUT METADATA:" ++ nl
  ++ json_dumps input_metadata ++ nl
  ++ nl
  ++ json_format_instructions.

(** The body of the [try] is the placeholder of the service call: it
    returns the fallback; so does the handler. *)
Definition refine_with_claude
  (e : Entropy) (raw_content : string) (input_metadata : Dict)
  : RefinedPrompt :=
  let analysis_prompt := analysis_prompt raw_content input_metadata in
  try_except
    (Return (_fallback_extraction e raw_content input_metadata))
    (fun _ => _fallback_extraction e raw_content input_metadata).

End Refinement.

(** ** main_system.py *)

(** The dictionary [process_and_refine] returns.  The key ['error'] is
    [failure] here; the key ['files'] holds the two paths written. *)
Record Outcome : Type := {
  status : string;
  stage : string;
  failure : option string;
  reason : option string;
  result : option RefinedPrompt;
  files : option (string * string)
}.

Section Pipeline.

Variable w : World.
Variable json_dumps : Dict -> string.
(** [str(self.output_dir / name)] *)
Variable output_path : string -> string.

(** Step 1 of [process_and_refine]: one input goes to [process_input], any
    other number of inputs to [process_multiple_inputs]. *)
Definition process_inputs (inputs : list string) : ProcessedInput :=
  if (List.length inputs =? 1)%nat
  then process_input w (nth 0 inputs "")
  else process_multiple_inputs w inputs.

(** Steps 1 to 3 and the returned dictionary; the progress messages and the
    two file writes of step 4 are left out. *)
Definition process_and_refine
  (e : Entropy) (inputs : list string) (output_name : option string)
  : Outcome :=
  let processed := process_inputs inputs in
  if negb (success processed) then
    {| status := "failed"; stage := "input_processing";
       failure := Some (match error processed with
                        | Some msg => msg
                        | None => "Unknown error"
                        end);
       reason := None; result := None; files := None |}
  else
    let (is_relevant, why) := is_relevant_prompt (content processed) in
    if negb is_relevant then
      {| status := "rejected"; stage := "relevance_check";
         failure := None; reason := Some why; result := None;
         files := None |}
    else
      try_except
        (refined_prompt <-
           Return (refine_with_claude json_dumps e (content processed)
                                      (metadata processed)) ;;
         let output_basename :=
           match output_name with
           | Some name => if is_empty name then prompt_id refined_prompt
                          else name
           | None => prompt_id refined_prompt
           end in
         Return
           {| status := "success"; stage := "complete";
              failure := None; reason := None;
              result := Some refined_prompt;
              files := Some (output_path (output_basename ++ ".json"),
                             output_path (output_basename ++ ".md")) |})
        (fun err =>
           {| status := "failed"; stage := "refinement";
              failure := Some err; reason := None; result := None;
              files := None |}).

End Pipeline.

(** ** prompt_template.py: [to_json]

    The object handed to [json.dumps].  [asdict] turns the dataclasses into
    dictionaries and leaves the enumeration members as they are; [to_json]
    then replaces them by their values. *)

Inductive JVal : Type :=
| JStr (s : string)
| JNum (x : float)
| JBool (b : bool)
| JNull
| JList (items : list JVal)
| JDict (fields : list (string * JVal))
| JPriority (level : PriorityLevel)
| JInputType (kind : InputType).

(** [d[k]], [None] standing for [KeyError]. *)
Fixpoint jget (d : list (string * JVal)) (k : string) : option JVal :=
  match d with
  | [] => None
  | (k', v) :: rest => if (k' =? k)%string then Some v else jget rest k
  end.

(** [d[k] = v]: a key that is present keeps its place. *)
Fixpoint jset (d : list (string * JVal)) (k : string) (v : JVal)
  : list (string * JVal) :=
  match d with
  | [] => [ (k, v) ]
  | (k', v') :: rest =>
      if (k' =? k)%string then (k', v) :: rest else (k', v') :: jset rest k v
  end.

Definition jopt (o : option string) : JVal :=
  match o with
  | Some s => JStr s
  | None => JNull
  end.

Definition jstrings (l : list string) : JVal := JList (map JStr l).

(** [asdict(req)] and [asdict(constraint)] *)
Definition asdict_requirement (req : Requirement) : JVal :=
  JDict [ ("description", JStr (description req));
          ("priority", JPriority (priority req));
          ("category", JStr (category req)) ].

Definition asdict_constraint (c : TechnicalConstraint) : JVal :=
  JDict [ ("constraint_type", JStr (constraint_type c));
          ("description", JStr (constraint_description c));
          ("is_mandatory", JBool (is_mandatory c)) ].

(** [asdict(self)], the fields in the order of the class. *)
Definition asdict (self : RefinedPrompt) : list (string * JVal) :=
  [ ("prompt_id", JStr (prompt_id self));
    ("timestamp", JStr (timestamp self));
    ("input_types", JList (map JInputType (input_types self)));
    ("core_intent", JStr (core_intent self));
    ("detailed_description", JStr (detailed_description self));
    ("domain", JStr (domain self));
    ("functional_requirements",
     JList (map asdict_requirement (functional_requirements self)));
    ("technical_constraints",
     JList (map asdict_constraint (technical_constraints self)));
    ("expected_outputs", jstrings (expected_outputs self));
    ("deliverable_format", jopt (deliverable_format self));
    ("background_context", jopt (background_context self));
    ("success_criteria", jstrings (success_criteria self));
    ("additional_notes", jopt (additional_notes self));
    ("confidence_score", JNum (confidence_score self));
    ("ambiguities", jstrings (ambiguities self));
    ("assumptions_made", jstrings (assumptions_made self)) ].

(** [{**req, 'priority': req['priority'].value if isinstance(req['priority'],
    PriorityLevel) else req['priority']}] *)
Definition with_priority_value (req : JVal) : Exc JVal :=
  match req with
  | JDict fields =>
      match jget fields "priority" with
      | Some (JPriority level) =>
          Return (JDict (jset fields "priority" (JStr (priority_value level))))
      | Some v => Return (JDict (jset fields "priority" v))
      | None => Raise "'priority'"
      end
  | _ => Raise "'priority'"
  end.

(** A list comprehension whose element expression may raise. *)
Fixpoint map_exc {A B : Type} (f : A -> Exc B) (l : list A) : Exc (list B) :=
  match l with
  | [] => Return []
  | x :: rest => y <- f x ;; ys <- map_exc f rest ;; Return (y :: ys)
  end.

(** The value of [data] when [json.dumps] is called. *)
Definition to_json_data (self : RefinedPrompt) : Exc (list (string * JVal)) :=
  let data := asdict self in
  let data :=
    jset data "input_types"
         (JList (map (fun it => JStr (input_type_value it))
                     (input_types self))) in
  match jget data "functional_requirements" with
  | Some (JList reqs) =>
      reqs' <- map_exc with_priority_value reqs ;;
      Return (jset data "functional_requirements" (JList reqs'))
  | Some _ => Raise "object is not iterable"
  | None => Raise "'functional_requirements'"
  end.

(** The first answer that is not [None]. *)
Fixpoint first_some (l : list (option string)) : option string :=
  match l with
  | [] => None
  | Some c :: _ => Some c
  | None :: rest => first_some rest
  end.

(** The class of the first object [json.dumps] cannot encode, if any: an
    enumeration member is no JSON value. *)
Fixpoint not_serializable (v : JVal) : option string :=
  match v with
  | JPriority _ => Some "PriorityLevel"
  | JInputType _ => Some "InputType"
  | JList items => first_some (map not_serializable items)
  | JDict fields =>
      first_some (map (fun kv => not_serializable (snd kv)) fields)
  | _ => None
  end.

Section ToJson.

(** The text [json.dumps(data, indent=2)] writes for an encodable [data]. *)
Variable dumps : JVal -> string.

(** [json.dumps(data, indent=2)] *)
Definition json_dumps_indent (data : JVal) : Exc string :=
  match not_serializable data with
  | Some class =>
      Raise ("Object of type " ++ class ++ " is not JSON serializable")
  | None => Return (dumps data)
  end.

Definition to_json (self : RefinedPrompt) : Exc string :=
  data <- to_json_data self ;;
  json_dumps_indent (JDict data).

End ToJson.

(** The object [to_json] encodes, field by field. *)
Definition json_requirement (req : Requirement) : JVal :=
  JDict [ ("description", JStr (description req));
          ("priority", JStr (priority_value (priority req)));
          ("category", JStr (category req)) ].

Definition json_object (p : RefinedPrompt) : list (string * JVal) :=
  [ ("prompt_id", JStr (prompt_id p));
    ("timestamp", JStr (timestamp p));
    ("input_types", jstrings (map input_type_value (input_types p)));
    ("core_intent", JStr (core_intent p));
    ("detailed_description", JStr (detailed_description p));
    ("domain", JStr (domain p));
    ("functional_requirements",
     JList (map json_requirement (functional_requirements p)));
    ("technical_constraints",
     JList (map asdict_constraint (technical_constraints p)));
    ("expected_outputs", jstrings (expected_outputs p));
    ("deliverable_format", jopt (deliverable_format p));
    ("background_context", jopt (background_context p));
    ("success_criteria", jstrings (success_criteria p));
    ("additional_notes", jopt (additional_notes p));
    ("confidence_score", JNum (confidence_score p));
    ("ambiguities", jstrings (ambiguities p));
    ("assumptions_made", jstrings (assumptions_made p)) ].

(** ** config_processor.py

    The loaded configuration is a dictionary with the optional keys
    ['name'], ['output_name'], ['inputs'] and ['projects']; a project is
    such a dictionary too.  The progress messages are left out. *)

Inductive Config : Type := mkConfig {
  cfg_name : option string;
  cfg_output_name : option string;
  cfg_inputs : option (list string);
  cfg_projects : option (list Config)
}.

(** [project.get('inputs', [])] *)
Definition project_inputs (project : Config) : list string :=
  match cfg_inputs project with
  | Some l => l
  | None => []
  end.

(** [project.get('name', project.get('output_name'))] *)
Definition project_output_name (project : Config) : option string :=
  match cfg_name project with
  | Some n => Some n
  | None => cfg_output_name project
  end.

Section ConfigBasedProcessor.

Variable w : World.
(** [yaml.safe_load] and [json.load] on the opened file. *)
Variable yaml_safe_load : string -> Exc Config.
Variable json_load : string -> Exc Config.
(** [self.system.process_and_refine] at its [i]-th call; writing the output
    files may raise. *)
Variable system_process_and_refine :
  nat -> list string -> option string -> Exc Outcome.

Definition load_config (config_path : string) : Exc Config :=
  if negb (path_exists w config_path)
  then Raise ("Config file not found: " ++ config_path)
  else
    let suffix := path_suffix w config_path in
    if mem suffix [ ".yaml"; ".yml" ] then yaml_safe_load config_path
    else if (suffix =? ".json")%string then json_load config_path
    else Raise ("Unsupported config format: " ++ suffix).

(** The loop over [enumerate(projects, 1)], from project number [i]. *)
Fixpoint process_projects
  (i : nat) (projects : list Config) (results : list (Config * Outcome))
  : Exc (list (Config * Outcome)) :=
  match projects with
  | [] => Return results
  | project :: rest =>
      let inputs := project_inputs project in
      let output_name := project_output_name project in
      result <- system_process_and_refine i inputs output_name ;;
      process_projects (S i) rest (results ++ [ (project, result) ])%list
  end.

Definition process_from_config (config_path : string)
  : Exc (list (Config * Outcome)) :=
  config <- load_config config_path ;;
  projects <-
    match cfg_inputs config with
    | Some _ => Return [ config ]
    | None =>
        match cfg_projects config with
        | Some projects => Return projects
        | None => Raise "Config must contain 'inputs' or 'projects' key"
        end
    end ;;
  process_projects 1 projects [].

End ConfigBasedProcessor.

(** ** interactive_refinement.py

    The terminal is the list of the lines still to be read; [input()] takes
    the first one and raises [EOFError] on the empty list.  Each reader
    returns its result and the lines it left.  What is printed is left
    out. *)

Definition eof : string := "EOF when reading a line".

(** The loop of [get_text_input]. *)
Fixpoint get_text_loop
  (stdin : list string) (lines : list string) (empty_count : nat)
  : Exc string * list string :=
  if (empty_count <? 1)%nat then
    match stdin with
    | [] => (Raise eof, [])
    | line :: rest =>
        if (strip line =? "")%string
        then get_text_loop rest lines (empty_count + 1)
        else get_text_loop rest (lines ++ [ line ])%list 0
    end
  else (Return (join nl lines), stdin).

Definition get_text_input (stdin : list string) : Exc string * list string :=
  get_text_loop stdin [] 0.

Section InteractiveFiles.

Variable w : World.
Variable isabs : string -> bool.        (* os.path.isabs *)
Variable abspath : string -> string.    (* os.path.abspath *)

(** [if not os.path.isabs(p): p = os.path.abspath(p)] *)
Definition absolute (file_path : string) : string :=
  if negb (isabs file_path) then abspath file_path else file_path.

(** The loop of [get_file_input]. *)
Fixpoint get_file_input (stdin : list string)
  : Exc (option string) * list string :=
  match stdin with
  | [] => (Raise eof, [])
  | line :: rest =>
      let file_path := strip line in
      if (lower file_path =? "cancel")%string then (Return None, rest)
      else
        let file_path := absolute file_path in
        if path_exists w file_path then (Return (Some file_path), rest)
        else get_file_input rest
  end.

(** The loop of [get_multiple_files]. *)
Fixpoint get_multiple_files_loop (stdin : list string) (files : list string)
  : Exc (list string) * list string :=
  match stdin with
  | [] => (Raise eof, [])
  | line :: rest =>
      let file_path := strip line in
      if is_empty file_path then (Return files, rest)
      else
        let file_path := absolute file_path in
        if path_exists w file_path
        then get_multiple_files_loop rest (files ++ [ file_path ])%list
        else get_multiple_files_loop rest files
  end.

Definition get_multiple_files (stdin : list string)
  : Exc (list string) * list string :=
  get_multiple_files_loop stdin [].

End InteractiveFiles.

(** The dictionary of a failed run. *)
Definition failed_outcome (stage_name msg : string) : Outcome :=
  {| status := "failed"; stage := stage_name; failure := Some msg;
     reason := None; result := None; files := None |}.

(** ** A concrete environment

    A POSIX directory holding a few files, used to run the definitions. *)

Module Sample.

(** [os.path.basename]: what follows the last slash. *)
Fixpoint basename_from (cur : string) (p : string) : string :=
  match p with
  | EmptyString => cur
  | String c t =>
      if (String c "" =? "/")%string then basename_from "" t
      else basename_from (cur ++ String c "") t
  end.

Definition basename (p : string) : string := basename_from "" p.

(** [name.rfind('.')], counting from [i]. *)
Fixpoint rfind_dot (name : string) (i : nat) : option nat :=
  match name with
  | EmptyString => None
  | String c t =>
      match rfind_dot t (S i) with
      | Some j => Some j
      | None => if (String c "" =? ".")%string then Some i else None
      end
  end.

(** [PurePath.suffix] for a path that does not end in a slash or a dot
    component: the last dot of the name and what follows, unless that dot
    starts or ends the name. *)
Definition suffix (p : string) : string :=
  let name := basename p in
  match rfind_dot name 0 with
  | Some i =>
      if ((0 <? i) && (i <? String.length name - 1))%nat
      then String.substring i (String.length name - i) name
      else ""
  | None => ""
  end.

Definition files : list string :=
  [ "notes.txt"; "docs/PLAN.MD"; "locked.txt"; "scan.png"; "paper.pdf";
    "brief.docx"; "setup.exe"; "README" ].

Definition task : string :=
  "Build a login system with database storage for our company".

Definition open_read (p : string) : Exc string :=
  if (p =? "notes.txt")%string then Return (task ++ nl)
  else if (p =? "docs/PLAN.MD")%string then Return "Design the dashboard"
  else Raise ("[Errno 13] Permission denied: '" ++ p ++ "'").

Definition ocr (p : string) : Exc OcrImage :=
  if (p =? "scan.png")%string
  then Return {| image_to_string := " Create an app " ++ nl;
                 img_size := (640, 480)%Z;
                 img_format := Some "PNG" |}
  else Raise "cannot identify image file".

Definition pdf (p : string) : Exc (list (Exc string)) :=
  if (p =? "paper.pdf")%string
  then Return [ Return "Analyze the data"; Return "and write a report" ]
  else Raise "EOF marker not found".

Definition docx (p : string) : Exc DocxDocument :=
  if (p =? "brief.docx")%string
  then Return {| paragraphs := [ "Develop a service"; "for billing" ];
                 tables := [ [ [ "a"; "b" ]; [ "c"; "d" ] ] ] |}
  else Raise "Package not found".

(** Every optional library is installed. *)
Definition full : World :=
  {| path_exists := fun p => mem p files;
     path_suffix := suffix;
     path_basename := basename;
     read_text := open_read;
     ocr_backend := Some ocr;
     pdf_backend := Some pdf;
     docx_backend := Some docx |}.

(** None of the optional libraries is installed. *)
Definition bare : World :=
  {| path_exists := fun p => mem p files;
     path_suffix := suffix;
     path_basename := basename;
     read_text := open_read;
     ocr_backend := None;
     pdf_backend := None;
     docx_backend := None |}.

Definition entropy : Entropy :=
  {| uuid4_hex := "3f2a9c1e7b604d5a8e1f0c2b4a6d8e90";
     now_isoformat := "2024-05-17T10:31:02.123456" |}.

(** The refined prompt of the fallback extractor for [task]. *)
Definition prompt : RefinedPrompt := _fallback_extraction entropy task [].

(** A serialiser standing for [json.dumps] where its output is not looked
    at. *)
Definition dumps (d : Dict) : string :=
  "{" ++ join ", " (map (fun kv => repr_str (fst kv) ++ ": " ++ repr (snd kv)) d)
      ++ "}".

End Sample.

(** ** A second environment

    [Sample.full] with configuration files and a home directory, for the
    configuration processor and the terminal readers. *)

Module Demo.

Definition files : list string :=
  (Sample.files
     ++ [ "input_config.yaml"; "single.json"; "legacy.YAML";
          "/home/user/notes.txt"; "/home/user/scan.png" ])%list.

Definition world : World :=
  {| path_exists := fun p => mem p files;
     path_suffix := Sample.suffix;
     path_basename := Sample.basename;
     read_text := Sample.open_read;
     ocr_backend := Some Sample.ocr;
     pdf_backend := Some Sample.pdf;
     docx_backend := Some Sample.docx |}.

Definition isabs (p : string) : bool := String.prefix "/" p.

Definition abspath (p : string) : string := "/home/user/" ++ p.

Definition login_project : Config :=
  {| cfg_name := Some "login"; cfg_output_name := Some "unused";
     cfg_inputs := Some [ "notes.txt" ]; cfg_projects := None |}.

Definition report_project : Config :=
  {| cfg_name := None; cfg_output_name := Some "report";
     cfg_inputs := Some [ "paper.pdf"; "Analyze the sales data" ];
     cfg_projects := None |}.

Definition batch : Config :=
  {| cfg_name := None; cfg_output_name := None; cfg_inputs := None;
     cfg_projects := Some [ login_project; report_project ] |}.

(** A configuration with both keys. *)
Definition single : Config :=
  {| cfg_name := Some "login"; cfg_output_name := None;
     cfg_inputs := Some [ "notes.txt" ];
     cfg_projects := Some [ report_project ] |}.

Definition yaml_load (p : string) : Exc Config :=
  if (p =? "input_config.yaml")%string then Return batch
  else Raise "mapping values are not allowed here".

Definition json_load (p : string) : Exc Config :=
  if (p =? "single.json")%string then Return single
  else Raise "Expecting value: line 1 column 1 (char 0)".

Definition output_path (name : string) : string := "refined_prompts/" ++ name.

Definition run (i : nat) (inputs : list string) (name : option string)
  : Exc Outcome :=
  Return (process_and_refine world Sample.dumps output_path Sample.entropy
                             inputs name).

End Demo.

(** ** Vocabulary of the properties *)

(** The invariant of a failed result: no content, type ['error'], empty
    metadata. *)
Definition failed_blank (r : ProcessedInput) : Prop :=
  content r = "" /\ type r = "error" /\ metadata r = [].

(** The results returned by [process_input] and by the extractors, and the
    results an aggregate keeps in ['individual_results']. *)
Inductive extracted (w : World) : ProcessedInput -> Prop :=
| extracted_input (p : string) : extracted w (process_input w p)
| extracted_text (text : string) : extracted w (process_text text)
| extracted_text_file (p : string) : extracted w (process_text_file w p)
| extracted_image (p : string) : extracted w (process_image w p)
| extracted_pdf (p : string) : extracted w (process_pdf w p)
| extracted_docx (p : string) : extracted w (process_docx w p)
| extracted_individual (ps : list string) (rs : list ProcessedInput)
    (r : ProcessedInput) :
    individual_results (process_multiple_inputs w ps) = Some rs ->
    In r rs -> extracted w r.

(** The delimiter line of a successful input in the combined content. *)
Definition source_line (r : ProcessedInput) : string :=
  "--- Source: "
    ++ format (get (metadata r) "filename" (VStr "text input")) ++ " ---".

(** Its entry in the ['sources'] sequence. *)
Definition source_entry (r : ProcessedInput) : PyVal :=
  get (metadata r) "filename" (VStr "text").

(** Its entry in the ['types'] sequence. *)
Definition type_entry (r : ProcessedInput) : PyVal := VStr (type r).

(** The delimiter and content lines of the successful results, in order. *)
Definition blocks (rs : list ProcessedInput) : list string :=
  flat_map (fun r => [ source_line r; content r ]) (filter success rs).

Definition failed (r : ProcessedInput) : bool := negb (success r).

(** What the relevance gate and the refiner receive from a processed
    input. *)
Definition same_downstream (a b : ProcessedInput) : Prop :=
  content a = content b /\ metadata a = metadata b /\ success a = success b.

(** The nine extensions of the dispatch table. *)
Definition text_suffixes : list string := [ ".txt"; ".md" ].
Definition image_suffixes : list string :=
  [ ".jpg"; ".jpeg"; ".png"; ".bmp"; ".gif" ].
Definition pdf_suffixes : list string := [ ".pdf" ].
Definition docx_suffixes : list string := [ ".docx" ].

(** Two refined prompts that differ at most in [prompt_id] and
    [timestamp]. *)
Definition same_but_identity (p q : RefinedPrompt) : Prop :=
  input_types p = input_types q
  /\ core_intent p = core_intent q
  /\ detailed_description p = detailed_description q
  /\ domain p = domain q
  /\ functional_requirements p = functional_requirements q
  /\ technical_constraints p = technical_constraints q
  /\ expected_outputs p = expected_outputs q
  /\ deliverable_format p = deliverable_format q
  /\ background_context p = background_context q
  /\ success_criteria p = success_criteria q
  /\ additional_notes p = additional_notes q
  /\ confidence_score p = confidence_score q
  /\ ambiguities p = ambiguities q
  /\ assumptions_made p = assumptions_made q.


(** ** The Markdown layout, section by section

    The serialisation as a list of sections, each a list of lines, written
    after the description of the layout; [to_markdown] is compared with it
    below. *)

(** Every line followed by a newline. *)
Fixpoint unlines (ls : list string) : string :=
  match ls with
  | [] => ""
  | l :: rest => l ++ nl ++ unlines rest
  end.

Definition nonempty {A : Type} (l : list A) : bool :=
  match l with [] => false | _ => true end.

Record MdSection : Type := {
  title : string;
  present : bool;
  lines : list string
}.

Definition bullet (item : string) : string := "- " ++ item.

Definition requirement_line (req : Requirement) : string :=
  "- [" ++ upper (priority_value (priority req)) ++ "] **" ++ category req
        ++ "**: " ++ description req.

Definition constraint_line (c : TechnicalConstraint) : string :=
  "- [" ++ (if is_mandatory c then "MANDATORY" else "PREFERRED") ++ "] **"
        ++ constraint_type c ++ "**: " ++ constraint_description c.

(** The trailing format line of the outputs section, when a format is
    set. *)
Definition format_lines (deliverable_format : option string) : list string :=
  match deliverable_format with
  | Some fmt => if is_empty fmt then [] else [ ""; "**Format:** " ++ fmt ]
  | None => []
  end.

Definition footer_line (p : RefinedPrompt) : string :=
  "*Confidence Score: " ++ format_2f (confidence_score p)
    ++ " | Generated: " ++ timestamp p ++ "*".

(** The nine sections in their order.  The first three and the footer are
    always present; each of the others is present when its data is not
    empty.  The footer is a rule followed by the confidence line. *)
Definition all_sections (p : RefinedPrompt) : list MdSection :=
  [ {| title := "Header"; present := true;
       lines := [ "# Refined Prompt: " ++ prompt_id p; "" ] |};
    {| title := "Core Intent"; present := true;
       lines := [ "## Core Intent";
                  "**Domain:** " ++ domain p;
                  "**Summary:** " ++ core_intent p;
                  "";
                  detailed_description p;
                  "" ] |};
    {| title := "Functional Requirements"; present := true;
       lines := "## Functional Requirements"
                  :: map requirement_line (functional_requirements p) |};
    {| title := "Technical Constraints";
       present := nonempty (technical_constraints p);
       lines := "" :: "## Technical Constraints"
                   :: map constraint_line (technical_constraints p) |};
    {| title := "Expected Outputs";
       present := nonempty (expected_outputs p);
       lines := ("" :: "## Expected Outputs"
                    :: map bullet (expected_outputs p)
                    ++ format_lines (deliverable_format p))%list |};
    {| title := "Success Criteria";
       present := nonempty (success_criteria p);
       lines := "" :: "## Success Criteria"
                   :: map bullet (success_criteria p) |};
    {| title := "Ambiguities Detected";
       present := nonempty (ambiguities p);
       lines := "" :: ambiguities_heading :: map bullet (ambiguities p) |};
    {| title := "Assumptions Made";
       present := nonempty (assumptions_made p);
       lines := "" :: "## Assumptions Made"
                   :: map bullet (assumptions_made p) |};
    {| title := "Footer"; present := true;
       lines := [ ""; "---"; footer_line p ] |} ].

Definition markdown_sections (p : RefinedPrompt) : list MdSection :=
  filter present (all_sections p).

Definition markdown_of_sections (p : RefinedPrompt) : string :=
  unlines (concat (map lines (markdown_sections p))).

(** A decimal digit. *)
Definition is_digit (c : ascii) : bool :=
  let n := nat_of_ascii c in ((48 <=? n) && (n <=? 57))%nat.

(** A number printed with exactly two digits after the point. *)
Definition two_decimals (s : string) : Prop :=
  exists int_part c1 c2,
    s = int_part ++ "." ++ String c1 (String c2 "")
    /\ is_digit c1 = true /\ is_digit c2 = true.

(** Closes a goal [success r = false -> failed_blank r] once [r] has been
    reduced to a record. *)
Ltac blank_or_ok :=
  cbn; intros Hfail;
  first [ discriminate Hfail | repeat split ].

(** * Properties *)

(** ** The relevance gate *)



(** ** The structured refiner *)


(** C5.  The fallback extractor on the login-and-database request: domain,
    the two injected requirements, the confidence of three tenths (printed
    as 0.30) and the single ambiguity. *)
Theorem C5_login_database_scenario (e : Entropy) (input_metadata : Dict) :
  let p :=
    _fallback_extraction e
      "Build a login system with database storage for our company"
      input_metadata in
  domain p = "software_development"
  /\ (exists r, In r (functional_requirements p)
                /\ priority r = CRITICAL /\ category r = "authentication")
  /\ (exists r, In r (functional_requirements p)
                /\ priority r = HIGH /\ category r = "data")
  /\ confidence_score p = (3 / 10)%float
  /\ format_2f (confidence_score p) = "0.30"
  /\ ambiguities p = [ "Automatic extraction - may be incomplete" ].
Proof.
  cbv zeta.
  split; [ reflexivity | ].
  split.
  { eexists. split; [ left; reflexivity | split; reflexivity ]. }
  split.
  { eexists. split; [ right; left; reflexivity | split; reflexivity ]. }
  split; [ vm_compute; reflexivity | ].
  split; [ vm_compute; reflexivity | reflexivity ].
Qed.

(** C6.  The fallback extractor does not read the declared type: its
    [input_types] is [[TEXT]] for every metadata, also where the derivation
    written in [_create_refined_prompt] gives another type. *)
Theorem C6_fallback_ignores_declared_type
  (e : Entropy) (raw_content : string) :
  (forall input_metadata,
      input_types (_fallback_extraction e raw_content input_metadata)
      = [ TEXT ])
  /\ _create_refined_prompt_input_types [ ("type", VStr "pdf") ]
     = Return [ PDF ]
  /\ input_types
       (_fallback_extraction e raw_content [ ("type", VStr "pdf") ])
     <> [ PDF ].
Proof.
  split; [ reflexivity | ].
  split; [ reflexivity | discriminate ].
Qed.

(** ** The image extractor *)

(** C9 as stated fails: without the OCR libraries the message is not
    "OCR dependency unavailable". *)
Lemma C9_message_counterexample :
  ocr_backend Sample.bare = None
  /\ error (process_image Sample.bare "scan.png")
     <> Some "OCR dependency unavailable".
Proof.
  split; [ reflexivity | discriminate ].
Qed.

(** C9, amended.  Without the OCR libraries [process_image] returns, for
    every path, the failed result whose message is
    "PIL or pytesseract not installed". *)
Theorem C9_ocr_unavailable_result
  (w : World) (image_path : string) (Hnone : ocr_backend w = None) :
  process_image w image_path
  = error_result "PIL or pytesseract not installed"
  /\ success (process_image w image_path) = false
  /\ error (process_image w image_path)
     = Some "PIL or pytesseract not installed".
Proof.
  unfold process_image.
  rewrite Hnone.
  repeat split.
Qed.

Lemma C9_ocr_unavailable_witness :
  success (process_image Sample.bare "scan.png") = false
  /\ error (process_image Sample.bare "scan.png")
     = Some "PIL or pytesseract not installed".
Proof.
  apply (C9_ocr_unavailable_result Sample.bare "scan.png").
  reflexivity.
Defined.

(** ** The format dispatcher *)

Lemma mem_true_iff (x : string) (xs : list string) :
  mem x xs = true <-> In x xs.
Proof.
  unfold mem. rewrite existsb_exists. split.
  - intros [y [Hin Heq]]. apply String.eqb_eq in Heq. now subst.
  - intros Hin. exists x. split; [ assumption | apply String.eqb_refl ].
Qed.

Lemma mem_false_iff (x : string) (xs : list string) :
  mem x xs = false <-> ~ In x xs.
Proof.
  rewrite <- mem_true_iff. destruct (mem x xs); split; intros H;
    try reflexivity; try discriminate; try (intros H'; discriminate).
  now contradiction H.
Qed.

(** C4.  The routing of [process_input]: literal text, missing file, the
    four extractors by lower-cased suffix, unsupported suffix. *)
Theorem C4_dispatch_table (w : World) (input_path : string) :
  let ext := lower (path_suffix w input_path) in
  let path_like := any_in [ "."; "/"; backslash ] input_path in
  (path_exists w input_path = false -> path_like = false ->
   process_input w input_path = process_text input_path)
  /\ (path_exists w input_path = false -> path_like = true ->
      process_input w input_path = error_result "File not found")
  /\ (path_exists w input_path = true -> In ext text_suffixes ->
      process_input w input_path = process_text_file w input_path)
  /\ (path_exists w input_path = true -> In ext image_suffixes ->
      process_input w input_path = process_image w input_path)
  /\ (path_exists w input_path = true -> In ext pdf_suffixes ->
      process_input w input_path = process_pdf w input_path)
  /\ (path_exists w input_path = true -> In ext docx_suffixes ->
      process_input w input_path = process_docx w input_path)
  /\ (path_exists w input_path = true ->
      ~ In ext (text_suffixes ++ image_suffixes ++ pdf_suffixes
                  ++ docx_suffixes)%list ->
      process_input w input_path
      = error_result ("Unsupported file format: " ++ ext)).
Proof.
  intros ext path_like. unfold process_input.
  fold ext. fold path_like.
  repeat split; intros Hex Hext; rewrite Hex; cbn [negb].
  - now rewrite Hext.
  - now rewrite Hext.
  - simpl in Hext.
    destruct Hext as [H | [H | []]]; rewrite <- H; reflexivity.
  - simpl in Hext.
    destruct Hext as [H | [H | [H | [H | [H | []]]]]];
      rewrite <- H; reflexivity.
  - simpl in Hext. destruct Hext as [H | []]; rewrite <- H; reflexivity.
  - simpl in Hext. destruct Hext as [H | []]; rewrite <- H; reflexivity.
  - assert (Hin : forall l, (forall x, In x l ->
                               In x (text_suffixes ++ image_suffixes
                                       ++ pdf_suffixes ++ docx_suffixes)%list)
                            -> mem ext l = false).
    { intros l Hl. apply mem_false_iff. intros Hin. apply Hext, Hl, Hin. }
    rewrite !Hin; [ reflexivity | | | | ];
      intros x Hx; simpl in Hx |- *; tauto.
Qed.

Lemma C4_dispatch_witness :
  process_input Sample.full "build a tool" = process_text "build a tool"
  /\ process_input Sample.full "nofile.xyz" = error_result "File not found"
  /\ process_input Sample.full "docs/PLAN.MD"
     = process_text_file Sample.full "docs/PLAN.MD"
  /\ process_input Sample.full "scan.png"
     = process_image Sample.full "scan.png"
  /\ process_input Sample.full "paper.pdf"
     = process_pdf Sample.full "paper.pdf"
  /\ process_input Sample.full "brief.docx"
     = process_docx Sample.full "brief.docx"
  /\ process_input Sample.full "setup.exe"
     = error_result "Unsupported file format: .exe".
Proof.
  split.
  { apply (C4_dispatch_table Sample.full "build a tool"); reflexivity. }
  split.
  { apply (C4_dispatch_table Sample.full "nofile.xyz"); reflexivity. }
  split.
  { apply (C4_dispatch_table Sample.full "docs/PLAN.MD");
      [ reflexivity | simpl; tauto ]. }
  split.
  { apply (C4_dispatch_table Sample.full "scan.png");
      [ reflexivity | simpl; tauto ]. }
  split.
  { apply (C4_dispatch_table Sample.full "paper.pdf");
      [ reflexivity | simpl; tauto ]. }
  split.
  { apply (C4_dispatch_table Sample.full "brief.docx");
      [ reflexivity | simpl; tauto ]. }
  apply (C4_dispatch_table Sample.full "setup.exe");
    [ reflexivity | ].
  simpl. intros H.
  repeat (destruct H as [H | H]; [ discriminate H | ]).
  exact H.
Defined.

(** ** The extractors *)

Lemma error_result_blank (msg : string) : failed_blank (error_result msg).
Proof. repeat split. Qed.

Lemma process_text_blank (text : string) :
  success (process_text text) = false -> failed_blank (process_text text).
Proof. blank_or_ok. Qed.

Lemma process_text_file_blank (w : World) (p : string) :
  success (process_text_file w p) = false ->
  failed_blank (process_text_file w p).
Proof.
  unfold process_text_file.
  destruct (read_text w p) as [text | msg]; blank_or_ok.
Qed.

Lemma process_image_blank (w : World) (p : string) :
  success (process_image w p) = false -> failed_blank (process_image w p).
Proof.
  unfold process_image.
  destruct (ocr_backend w) as [ocr | ]; [ | blank_or_ok ].
  destruct (ocr p) as [img | msg]; blank_or_ok.
Qed.

Lemma process_pdf_blank (w : World) (p : string) :
  success (process_pdf w p) = false -> failed_blank (process_pdf w p).
Proof.
  unfold process_pdf.
  destruct (pdf_backend w) as [reader | ]; [ | blank_or_ok ].
  destruct (reader p) as [pages | msg]; [ | blank_or_ok ].
  cbn. destruct (extract_pages pages "") as [text | msg]; blank_or_ok.
Qed.

Lemma process_docx_blank (w : World) (p : string) :
  success (process_docx w p) = false -> failed_blank (process_docx w p).
Proof.
  unfold process_docx.
  destruct (docx_backend w) as [document | ]; [ | blank_or_ok ].
  destruct (document p) as [doc | msg]; blank_or_ok.
Qed.

Lemma process_input_blank (w : World) (p : string) :
  success (process_input w p) = false -> failed_blank (process_input w p).
Proof.
  unfold process_input.
  destruct (path_exists w p); cbn [negb].
  - repeat match goal with
           | |- context [ if mem ?x ?l then _ else _ ] => destruct (mem x l)
           end;
      auto using process_text_file_blank, process_image_blank,
                 process_pdf_blank, process_docx_blank.
    blank_or_ok.
  - destruct (any_in _ p); cbn [negb];
      [ blank_or_ok | apply process_text_blank ].
Qed.

(** ** The aggregator *)

(** The loop of [process_multiple_inputs], run from any accumulator. *)
Lemma fold_combine_step (w : World) (ps : list string) :
  forall acc,
    fold_left (combine_step w) ps acc
    = let rs := map (process_input w) ps in
      {| results := results acc ++ rs;
         combined_content := combined_content acc ++ blocks rs;
         sources := sources acc ++ map source_entry (filter success rs);
         types := types acc ++ map type_entry (filter success rs) |}%list.
Proof.
  induction ps as [ | p ps IH ]; intros acc; cbn [fold_left map].
  - destruct acc; cbn. unfold blocks; cbn. now rewrite !app_nil_r.
  - rewrite IH. cbv zeta. unfold combine_step, blocks.
    cbn [filter].
    destruct (success (process_input w p)); cbn;
      rewrite <- ?app_assoc; reflexivity.
Qed.

Lemma aggregate_individual_results (w : World) (ps : list string) :
  individual_results (process_multiple_inputs w ps)
  = Some (map (process_input w) ps).
Proof.
  unfold process_multiple_inputs. now rewrite fold_combine_step.
Qed.

Lemma aggregate_success (w : World) (ps : list string) :
  success (process_multiple_inputs w ps)
  = forallb success (map (process_input w) ps).
Proof.
  unfold process_multiple_inputs. now rewrite fold_combine_step.
Qed.

Lemma aggregate_metadata (w : World) (ps : list string) :
  metadata (process_multiple_inputs w ps)
  = let ok := filter success (map (process_input w) ps) in
    [ ("sources", VList (map source_entry ok));
      ("types", VList (map type_entry ok)) ].
Proof.
  unfold process_multiple_inputs. now rewrite fold_combine_step.
Qed.

Lemma aggregate_content (w : World) (ps : list string) :
  content (process_multiple_inputs w ps)
  = join (nl ++ nl) (blocks (map (process_input w) ps)).
Proof.
  unfold process_multiple_inputs. now rewrite fold_combine_step.
Qed.

Lemma filter_all {A : Type} (f : A -> bool) (l : list A) :
  forallb f l = true -> filter f l = l.
Proof.
  induction l as [ | a l IH ]; cbn; [ reflexivity | ].
  intros H. apply andb_true_iff in H as [Ha Hl].
  rewrite Ha. f_equal. auto.
Qed.

Lemma no_failure_when_all_succeed (rs : list ProcessedInput) :
  forallb success rs = true -> filter failed rs = [].
Proof.
  induction rs as [ | r rs IH ]; cbn; [ reflexivity | ].
  intros H. apply andb_true_iff in H as [Hr Hrs].
  unfold failed at 1. rewrite Hr. cbn. auto.
Qed.

(** C1 as stated fails on an aggregate: one missing file among two inputs
    gives a failed result of type ['mixed'] that keeps the content of the
    other input and a non-empty metadata. *)
Lemma C1_aggregate_counterexample :
  let agg :=
    process_multiple_inputs Sample.full [ "build a tool"; "nofile.xyz" ] in
  success agg = false
  /\ content agg <> "" /\ type agg <> "error" /\ metadata agg <> [].
Proof.
  cbv zeta. split; [ reflexivity | ].
  repeat split; discriminate.
Qed.

(** C1, amended.  A failed result of [process_input], of an extractor, or
    among the individual results of an aggregate has no content, the type
    ['error'] and an empty metadata. *)
Theorem C1_failed_extraction_is_blank
  (w : World) (r : ProcessedInput)
  (Hex : extracted w r) (Hfail : success r = false) :
  content r = "" /\ type r = "error" /\ metadata r = [].
Proof.
  change (failed_blank r).
  destruct Hex as [ p | text | p | p | p | p | ps rs r Hrs Hin ];
    auto using process_input_blank, process_text_blank,
               process_text_file_blank, process_image_blank,
               process_pdf_blank, process_docx_blank.
  rewrite aggregate_individual_results in Hrs.
  injection Hrs as <-.
  apply in_map_iff in Hin as [p [<- _]].
  now apply process_input_blank.
Qed.

Lemma C1_failed_extraction_witness :
  content (process_input Sample.full "locked.txt") = ""
  /\ type (process_input Sample.full "locked.txt") = "error"
  /\ metadata (process_input Sample.full "locked.txt") = [].
Proof.
  apply (C1_failed_extraction_is_blank Sample.full).
  - apply extracted_input.
  - reflexivity.
Defined.

(** C3.  The aggregate keeps one result per input, in order; its success
    is the conjunction of theirs; one failure among two or more inputs
    fails it; when all succeed, ['sources'] and ['types'] hold one entry
    per input, in input order. *)
Theorem C3_aggregate_success_is_conjunction
  (w : World) (input_paths : list string) :
  let rs := map (process_input w) input_paths in
  let agg := process_multiple_inputs w input_paths in
  individual_results agg = Some rs
  /\ success agg = forallb success rs
  /\ ((2 <= List.length input_paths)%nat ->
      List.length (filter failed rs) = 1%nat ->
      success agg = false)
  /\ (forallb success rs = true ->
      success agg = true
      /\ metadata agg = [ ("sources", VList (map source_entry rs));
                          ("types", VList (map type_entry rs)) ]
      /\ List.length (map source_entry rs) = List.length input_paths
      /\ List.length (map type_entry rs) = List.length input_paths).
Proof.
  intros rs agg. subst agg.
  split; [ apply aggregate_individual_results | ].
  split; [ apply aggregate_success | ].
  split.
  - intros _ Hone. rewrite aggregate_success. fold rs.
    destruct (forallb success rs) eqn:Hall; [ | reflexivity ].
    apply no_failure_when_all_succeed in Hall.
    rewrite Hall in Hone. discriminate Hone.
  - intros Hall.
    rewrite aggregate_success, aggregate_metadata. fold rs. cbv zeta.
    rewrite (filter_all _ _ Hall).
    repeat split; try assumption; subst rs; now rewrite !length_map.
Qed.

Lemma C3_aggregate_witness :
  success (process_multiple_inputs Sample.full
             [ "build a tool"; "nofile.xyz"; "notes.txt" ]) = false
  /\ metadata (process_multiple_inputs Sample.full
                 [ "build a tool"; "scan.png"; "notes.txt" ])
     = [ ("sources", VList [ VStr "text"; VStr "scan.png"; VStr "notes.txt" ]);
         ("types", VList [ VStr "text"; VStr "image"; VStr "text" ]) ].
Proof.
  split.
  - apply (C3_aggregate_success_is_conjunction Sample.full
             [ "build a tool"; "nofile.xyz"; "notes.txt" ]).
    + simpl. lia.
    + reflexivity.
  - apply (C3_aggregate_success_is_conjunction Sample.full
             [ "build a tool"; "scan.png"; "notes.txt" ]).
    reflexivity.
Defined.

(** ** Single input against the aggregate of one *)

(** C2 as stated fails: for the literal text "build" the aggregate of one
    differs from the single result in content and metadata, and the
    relevance gate rejects the one and accepts the other. *)
Lemma C2_single_input_counterexample :
  let one := process_inputs Sample.full [ "build" ] in
  let agg := process_multiple_inputs Sample.full [ "build" ] in
  ~ same_downstream one agg
  /\ content one <> content agg
  /\ metadata one <> metadata agg
  /\ is_relevant_prompt (content one)
     = (false, "Input too short (less than 5 words)")
  /\ is_relevant_prompt (content agg) = (true, "Input appears relevant").
Proof.
  cbv zeta.
  split; [ intros [Hc _]; discriminate Hc | ].
  split; [ discriminate | ].
  split; [ discriminate | ].
  split; reflexivity.
Qed.

(** C2, amended.  The pipeline sends a single reference to [process_input].
    The aggregate of that one reference has the same success flag and keeps
    the single result; when it succeeded, the aggregate content is its
    delimiter line, a blank line and its content, and the aggregate metadata
    is the one-entry ['sources'] and ['types']; when it failed, the content
    is empty and both sequences are empty. *)
Theorem C2_single_input_and_aggregate (w : World) (r : string) :
  let one := process_input w r in
  let agg := process_multiple_inputs w [ r ] in
  process_inputs w [ r ] = one
  /\ success agg = success one
  /\ individual_results agg = Some [ one ]
  /\ type agg = "mixed"
  /\ (success one = true ->
      content agg = source_line one ++ nl ++ nl ++ content one
      /\ metadata agg = [ ("sources", VList [ source_entry one ]);
                          ("types", VList [ type_entry one ]) ])
  /\ (success one = false ->
      content agg = ""
      /\ metadata agg = [ ("sources", VList []); ("types", VList []) ]).
Proof.
  intros one agg. subst agg.
  split; [ reflexivity | ].
  split; [ rewrite aggregate_success; cbn; apply andb_true_r | ].
  split; [ apply aggregate_individual_results | ].
  split; [ reflexivity | ].
  rewrite aggregate_content, aggregate_metadata.
  unfold blocks. cbn [map filter]. fold one.
  split; intros Hone; rewrite Hone; split; reflexivity.
Qed.

Lemma C2_single_input_witness :
  content (process_multiple_inputs Sample.full [ "notes.txt" ])
  = "--- Source: notes.txt ---" ++ nl ++ nl ++ Sample.task
  /\ metadata (process_multiple_inputs Sample.full [ "notes.txt" ])
     = [ ("sources", VList [ VStr "notes.txt" ]);
         ("types", VList [ VStr "text" ]) ].
Proof.
  apply (C2_single_input_and_aggregate Sample.full "notes.txt").
  reflexivity.
Defined.

(** ** The Markdown serialisation *)

Lemma append_assoc (a b c : string) : (a ++ b) ++ c = a ++ (b ++ c).
Proof. induction a as [ | x a IH ]; cbn; [ reflexivity | now rewrite IH ]. Qed.

Lemma append_nil_r (a : string) : a ++ "" = a.
Proof. induction a as [ | x a IH ]; cbn; [ reflexivity | now rewrite IH ]. Qed.

Lemma unlines_app (a b : list string) :
  unlines (a ++ b) = unlines a ++ unlines b.
Proof.
  induction a as [ | l a IH ]; cbn; [ reflexivity | ].
  now rewrite IH, !append_assoc.
Qed.

(** A loop that appends one line per item. *)
Lemma fold_lines {A : Type} (step : string -> A -> string) (line : A -> string)
  (Hstep : forall md x, step md x = md ++ line x ++ nl) (items : list A) :
  forall md, fold_left step items md = md ++ unlines (map line items).
Proof.
  induction items as [ | x items IH ]; intros md; cbn.
  - now rewrite append_nil_r.
  - now rewrite IH, Hstep, !append_assoc.
Qed.

Lemma add_bullets_lines (md : string) (items : list string) :
  add_bullets md items = md ++ unlines (map bullet items).
Proof.
  unfold add_bullets. apply fold_lines.
  intros; unfold bullet. now rewrite !append_assoc.
Qed.

Lemma optional_bullets (md heading : string) (items : list string) :
  match items with
  | [] => md
  | _ => add_bullets (md ++ nl ++ heading ++ nl) items
  end
  = md ++ unlines (if nonempty items
                   then "" :: heading :: map bullet items else []).
Proof.
  destruct items as [ | x items ].
  - cbn. now rewrite append_nil_r.
  - rewrite add_bullets_lines. cbn [nonempty unlines].
    now rewrite !append_assoc.
Qed.

Lemma render_cons (s : MdSection) (rest : list MdSection) :
  unlines (concat (map lines (filter present (s :: rest))))
  = unlines (if present s then lines s else [])
    ++ unlines (concat (map lines (filter present rest))).
Proof.
  cbn [filter]. destruct (present s); cbn [map concat unlines].
  - apply unlines_app.
  - reflexivity.
Qed.


Lemma constraints_stage (md : string) (cs : list TechnicalConstraint) :
  match cs with
  | [] => md
  | _ :: _ =>
      fold_left
        (fun md constraint =>
           md ++ "- ["
              ++ (if is_mandatory constraint then "MANDATORY" else "PREFERRED")
              ++ "] **" ++ constraint_type constraint ++ "**: "
              ++ constraint_description constraint ++ nl)
        cs (md ++ nl ++ "## Technical Constraints" ++ nl)
  end
  = md ++ unlines (if nonempty cs
                   then "" :: "## Technical Constraints"
                           :: map constraint_line cs
                   else []).
Proof.
  destruct cs as [ | c cs ].
  - cbn. now rewrite append_nil_r.
  - rewrite (fold_lines _ constraint_line).
    + cbn [nonempty unlines]. now rewrite !append_assoc.
    + intros acc x. unfold constraint_line. now rewrite !append_assoc.
Qed.

Lemma outputs_stage (md : string) (outs : list string) (fmt : option string) :
  match outs with
  | [] => md
  | _ :: _ =>
      match fmt with
      | Some f =>
          if is_empty f
          then add_bullets (md ++ nl ++ "## Expected Outputs" ++ nl) outs
          else add_bullets (md ++ nl ++ "## Expected Outputs" ++ nl) outs
                 ++ nl ++ "**Format:** " ++ f ++ nl
      | None => add_bullets (md ++ nl ++ "## Expected Outputs" ++ nl) outs
      end
  end
  = md ++ unlines
            (if nonempty outs
             then ("" :: "## Expected Outputs" :: map bullet outs
                      ++ format_lines fmt)%list
             else []).
Proof.
  destruct outs as [ | o outs ].
  - cbn. now rewrite append_nil_r.
  - rewrite add_bullets_lines. cbn [nonempty].
    change ("" :: "## Expected Outputs" :: ?l)%list
      with ([ ""; "## Expected Outputs" ] ++ l)%list.
    unfold format_lines.
    destruct fmt as [ f | ]; [ destruct (is_empty f) | ];
      rewrite ?app_nil_r, ?unlines_app; cbn [unlines app];
      rewrite ?append_assoc, ?append_nil_r; reflexivity.
Qed.


Lemma markdown_layout (p : RefinedPrompt) :
  to_markdown p = markdown_of_sections p.
Proof.
  unfold markdown_of_sections, markdown_sections, all_sections.
  rewrite !render_cons. cbn [present lines filter map concat].
  unfold to_markdown. cbv zeta.
  rewrite (fold_lines _ requirement_line).
  2:{ intros md req. unfold requirement_line. now rewrite !append_assoc. }
  rewrite !optional_bullets, outputs_stage, constraints_stage.
  unfold footer_line.
  cbn [unlines]. rewrite !append_assoc. cbn [append].
  rewrite ?append_nil_r.
  reflexivity.
Qed.

Lemma str_of_digit (d : Z) :
  (0 <= d < 10)%Z ->
  exists c, str_of_Z d = String c "" /\ is_digit c = true.
Proof.
  intros Hd.
  assert (H : (d = 0 \/ d = 1 \/ d = 2 \/ d = 3 \/ d = 4 \/ d = 5 \/ d = 6
               \/ d = 7 \/ d = 8 \/ d = 9)%Z) by lia.
  repeat (destruct H as [-> | H]; [ eexists; split; reflexivity | ]).
  subst d. eexists; split; reflexivity.
Qed.

Lemma format_2f_shape (x : float) :
  In (format_2f x) [ "nan"; "inf"; "-inf" ] \/ two_decimals (format_2f x).
Proof.
  unfold format_2f.
  destruct (Prim2SF x) as [ s | s | | s m e ].
  - right. exists ((if s then "-" else "") ++ "0"), "0"%char, "0"%char.
    rewrite !append_assoc. repeat split.
  - left. destruct s; cbn; tauto.
  - left. cbn; tauto.
  - right.
    set (h := round_half_even (Z.pos m * 100) e).
    assert (Hh : (0 <= h mod 100 < 100)%Z)
      by (apply Z.mod_pos_bound; lia).
    destruct (str_of_digit ((h mod 100) / 10)) as [c1 [E1 D1]].
    { split; [ apply Z.div_pos; lia | apply Z.div_lt_upper_bound; lia ]. }
    destruct (str_of_digit ((h mod 100) mod 10)) as [c2 [E2 D2]].
    { apply Z.mod_pos_bound; lia. }
    exists ((if s then "-" else "") ++ str_of_Z (h / 100)), c1, c2.
    unfold two_digits. rewrite E1, E2, !append_assoc. repeat split; assumption.
Qed.

(** C7 as stated fails: the prompt of the fallback extractor has an
    ambiguity, yet no line of its Markdown is "## Ambiguities Detected";
    the heading carries a warning sign. *)
Lemma C7_heading_counterexample :
  ambiguities Sample.prompt <> []
  /\ contains (nl ++ "## Ambiguities Detected" ++ nl)
              (to_markdown Sample.prompt) = false
  /\ contains (nl ++ ambiguities_heading ++ nl)
              (to_markdown Sample.prompt) = true.
Proof.
  split; [ discriminate | ].
  split; vm_compute; reflexivity.
Qed.

(** C7, amended.  The Markdown is the concatenation, in order, of the
    sections of [all_sections] that are present: header, core intent and
    requirements always, the five optional sections when their data is not
    empty (the ambiguities heading with its warning sign), and the footer,
    a rule line followed by the confidence line, which ends the text.  The
    score is printed with two decimals, or as nan or inf when it is not
    finite.  Every requirement gives one line of the form
    [- [PRIORITY] **category**: description]. *)
Theorem C7_markdown_by_sections (p : RefinedPrompt) :
  to_markdown p = markdown_of_sections p
  /\ (exists body,
        to_markdown p = body ++ "---" ++ nl ++ footer_line p ++ nl)
  /\ (In (format_2f (confidence_score p)) [ "nan"; "inf"; "-inf" ]
      \/ two_decimals (format_2f (confidence_score p)))
  /\ (forall req,
        In req (functional_requirements p) ->
        exists before after,
          to_markdown p = before ++ requirement_line req ++ nl ++ after).
Proof.
  split; [ apply markdown_layout | ].
  split.
  { rewrite markdown_layout.
    unfold markdown_of_sections, markdown_sections.
    change (all_sections p)
      with (firstn 8 (all_sections p)
              ++ [ {| title := "Footer"; present := true;
                      lines := [ ""; "---"; footer_line p ] |} ])%list.
    rewrite filter_app, map_app, concat_app, unlines_app.
    match goal with
    | |- exists body, ?X ++ _ = _ => exists (X ++ nl)
    end.
    cbn [filter present map lines concat app unlines].
    rewrite !append_assoc. cbn [append]. now rewrite append_nil_r. }
  split; [ apply format_2f_shape | ].
  intros req Hin. apply in_split in Hin as [l1 [l2 Hsplit]].
  rewrite markdown_layout.
  unfold markdown_of_sections, markdown_sections, all_sections.
  rewrite 3!render_cons. cbn [present lines].
  rewrite Hsplit, map_app. cbn [map unlines]. rewrite unlines_app.
  cbn [unlines].
  match goal with
  | |- exists b a,
        ?A1 ++ ?A2 ++ (?h ++ nl ++ ?M1 ++ _ ++ nl ++ ?M2) ++ ?R = _ =>
      exists (A1 ++ A2 ++ h ++ nl ++ M1), (M2 ++ R)
  end.
  rewrite !append_assoc. reflexivity.
Qed.

Lemma C7_markdown_witness :
  exists before after,
    to_markdown Sample.prompt
    = before ++ "- [CRITICAL] **authentication**: User authentication"
             ++ nl ++ after.
Proof.
  destruct (C7_markdown_by_sections Sample.prompt) as (_ & _ & _ & Hreq).
  apply (Hreq {| description := "User authentication";
                 priority := CRITICAL;
                 category := "authentication" |}).
  left. reflexivity.
Defined.

(** * Further properties of the code *)

(** ** White space and case *)

Lemma isspace_lower_char (c : ascii) : isspace (lower_char c) = isspace c.
Proof. destruct c as [[] [] [] [] [] [] [] []]; reflexivity. Qed.

Lemma lower_char_idem (c : ascii) : lower_char (lower_char c) = lower_char c.
Proof. destruct c as [[] [] [] [] [] [] [] []]; reflexivity. Qed.

Lemma upper_char_idem (c : ascii) : upper_char (upper_char c) = upper_char c.
Proof. destruct c as [[] [] [] [] [] [] [] []]; reflexivity. Qed.

Lemma map_chars_app (f : ascii -> ascii) (a b : string) :
  map_chars f (a ++ b) = map_chars f a ++ map_chars f b.
Proof. induction a as [ | c a IH ]; cbn; [ reflexivity | now rewrite IH ]. Qed.

Lemma map_chars_length (f : ascii -> ascii) (s : string) :
  String.length (map_chars f s) = String.length s.
Proof. induction s as [ | c s IH ]; cbn; [ reflexivity | now rewrite IH ]. Qed.

Lemma lower_idem (s : string) : lower (lower s) = lower s.
Proof.
  unfold lower. induction s as [ | c s IH ]; cbn; [ reflexivity | ].
  now rewrite lower_char_idem, IH.
Qed.

Lemma upper_idem (s : string) : upper (upper s) = upper s.
Proof.
  unfold upper. induction s as [ | c s IH ]; cbn; [ reflexivity | ].
  now rewrite upper_char_idem, IH.
Qed.

Lemma is_empty_map_chars (f : ascii -> ascii) (s : string) :
  is_empty (map_chars f s) = is_empty s.
Proof. now destruct s. Qed.

(** Lower-casing keeps the number of words. *)
Lemma split_from_lower_length (s : string) :
  forall cur,
    List.length (split_from (lower cur) (lower s))
    = List.length (split_from cur s).
Proof.
  unfold lower.
  induction s as [ | c s IH ]; intros cur; cbn.
  - rewrite is_empty_map_chars. now destruct (is_empty cur).
  - rewrite isspace_lower_char, is_empty_map_chars.
    destruct (isspace c).
    + pose proof (IH "") as H0. cbn [map_chars] in H0.
      destruct (is_empty cur); cbn; now rewrite H0.
    + rewrite <- IH. now rewrite map_chars_app.
Qed.

Lemma word_count_lower (s : string) :
  List.length (split (lower s)) = List.length (split s).
Proof. apply (split_from_lower_length s ""). Qed.

(** X13.  The verdict of the relevance gate does not depend on letter
    case: two contents with the same lower-case form get the same verdict
    and reason. *)
Theorem X13_gate_case_insensitive (a b : string) (Hsame : lower a = lower b) :
  is_relevant_prompt a = is_relevant_prompt b.
Proof.
  unfold is_relevant_prompt.
  rewrite <- (word_count_lower a), <- (word_count_lower b), Hsame.
  reflexivity.
Qed.

Lemma gate_case_insensitive_witness :
  is_relevant_prompt "BUILD A Login System Now"
  = is_relevant_prompt "build a login system now".
Proof.
  apply (X13_gate_case_insensitive "BUILD A Login System Now"
                                 "build a login system now").
  reflexivity.
Defined.

(** ** Trimming *)

Lemma lstrip_head (s : string) :
  lstrip s = "" \/ exists c t, lstrip s = String c t /\ isspace c = false.
Proof.
  induction s as [ | c s IH ]; cbn; [ now left | ].
  destruct (isspace c) eqn:Hc; [ exact IH | ].
  right. now exists c, s.
Qed.

Lemma rstrip_idem (s : string) : rstrip (rstrip s) = rstrip s.
Proof.
  induction s as [ | c s IH ]; cbn; [ reflexivity | ].
  destruct (isspace c && is_empty (rstrip s)) eqn:H; [ reflexivity | ].
  cbn. now rewrite IH, H.
Qed.

Lemma strip_idem (s : string) : strip (strip s) = strip s.
Proof.
  unfold strip.
  destruct (lstrip_head s) as [ -> | (c & t & -> & Hc) ]; [ reflexivity | ].
  cbn [rstrip]. rewrite Hc. cbn [andb lstrip]. rewrite Hc.
  change (String c (rstrip t)) with (String c (rstrip t)).
  cbn [rstrip]. rewrite Hc. cbn [andb]. now rewrite rstrip_idem.
Qed.

Lemma lstrip_length (s : string) :
  (String.length (lstrip s) <= String.length s)%nat.
Proof.
  induction s as [ | c s IH ]; cbn; [ lia | ].
  destruct (isspace c); cbn; lia.
Qed.

Lemma rstrip_length (s : string) :
  (String.length (rstrip s) <= String.length s)%nat.
Proof.
  induction s as [ | c s IH ]; cbn; [ lia | ].
  destruct (isspace c && is_empty (rstrip s)); cbn; lia.
Qed.

Lemma strip_length (s : string) :
  (String.length (strip s) <= String.length s)%nat.
Proof.
  unfold strip.
  pose proof (rstrip_length (lstrip s)). pose proof (lstrip_length s). lia.
Qed.

(** ** Extractors: trimmed content and lengths *)

Lemma process_text_file_trimmed (w : World) (p : string) :
  strip (content (process_text_file w p)) = content (process_text_file w p).
Proof.
  unfold process_text_file.
  destruct (read_text w p); cbn; [ apply strip_idem | reflexivity ].
Qed.

Lemma process_image_trimmed (w : World) (p : string) :
  strip (content (process_image w p)) = content (process_image w p).
Proof.
  unfold process_image.
  destruct (ocr_backend w) as [ocr | ]; [ | reflexivity ].
  destruct (ocr p); cbn; [ apply strip_idem | reflexivity ].
Qed.

Lemma process_pdf_trimmed (w : World) (p : string) :
  strip (content (process_pdf w p)) = content (process_pdf w p).
Proof.
  unfold process_pdf.
  destruct (pdf_backend w) as [reader | ]; [ | reflexivity ].
  destruct (reader p) as [pages | ]; [ | reflexivity ].
  cbn. destruct (extract_pages pages ""); cbn;
    [ apply strip_idem | reflexivity ].
Qed.

Lemma process_docx_trimmed (w : World) (p : string) :
  strip (content (process_docx w p)) = content (process_docx w p).
Proof.
  unfold process_docx.
  destruct (docx_backend w) as [document | ]; [ | reflexivity ].
  destruct (document p); cbn; [ apply strip_idem | reflexivity ].
Qed.

Lemma process_input_trimmed (w : World) (p : string) :
  strip (content (process_input w p)) = content (process_input w p).
Proof.
  unfold process_input.
  destruct (path_exists w p); cbn [negb].
  - repeat match goal with
           | |- context [ if mem ?x ?l then _ else _ ] => destruct (mem x l)
           end;
      auto using process_text_file_trimmed, process_image_trimmed,
                 process_pdf_trimmed, process_docx_trimmed.
  - destruct (any_in _ p); cbn; [ reflexivity | apply strip_idem ].
Qed.

(** X1.  The content of every result of [process_input], of an extractor
    and of every individual result of an aggregate is trimmed: stripping it
    again changes nothing. *)
Theorem X1_extracted_content_is_trimmed
  (w : World) (r : ProcessedInput) (Hex : extracted w r) :
  strip (content r) = content r
  /\ (String.length (strip (content r)) = String.length (content r)).
Proof.
  assert (H : strip (content r) = content r).
  { destruct Hex as [ p | text | p | p | p | p | ps rs r Hrs Hin ];
      auto using process_input_trimmed, process_text_file_trimmed,
                 process_image_trimmed, process_pdf_trimmed,
                 process_docx_trimmed.
    - apply strip_idem.
    - rewrite aggregate_individual_results in Hrs.
      injection Hrs as <-.
      apply in_map_iff in Hin as [p [<- _]].
      apply process_input_trimmed. }
  split; [ exact H | now rewrite H ].
Qed.

Lemma get_length_text (text : string) :
  get (metadata (process_text text)) "length" VNone
  = VInt (Z.of_nat (String.length text)).
Proof. reflexivity. Qed.


(** ** PDF *)

Lemma extract_pages_all (ts : list string) :
  forall acc,
    extract_pages (map Return ts) acc = Return (acc ++ unlines ts).
Proof.
  induction ts as [ | t ts IH ]; intros acc; cbn.
  - now rewrite append_nil_r.
  - rewrite IH. now rewrite !append_assoc.
Qed.

Lemma extract_pages_first_failure
  (ts : list string) (msg : string) (rest : list (Exc string)) :
  forall acc,
    extract_pages (map Return ts ++ Raise msg :: rest)%list acc = Raise msg.
Proof.
  induction ts as [ | t ts IH ]; intros acc; cbn; [ reflexivity | apply IH ].
Qed.



(** ** DOCX *)

Lemma table_rows_from (tbls : list (list (list string))) :
  forall acc,
    fold_left
      (fun table_text table =>
         fold_left (fun table_text row => table_text ++ [join " | " row])%list
                   table table_text)
      tbls acc
    = (acc ++ map (join " | ") (concat tbls))%list.
Proof.
  assert (Hrow : forall (table : list (list string)) acc,
             fold_left (fun table_text row =>
                          table_text ++ [join " | " row])%list table acc
             = (acc ++ map (join " | ") table)%list).
  { induction table as [ | row table IH ]; intros acc; cbn.
    - now rewrite app_nil_r.
    - rewrite IH. now rewrite <- app_assoc. }
  induction tbls as [ | table tbls IH ]; intros acc; cbn.
  - now rewrite app_nil_r.
  - rewrite Hrow, IH, map_app. now rewrite <- app_assoc.
Qed.

Lemma table_rows_flat (tbls : list (list (list string))) :
  table_rows tbls = map (join " | ") (concat tbls).
Proof. unfold table_rows. apply table_rows_from. Qed.

(** X4.  With python-docx installed and a document that opens: the rows
    of all tables are flattened in order, cells joined by " | "; the
    "Tables:" part is appended exactly when there is at least one row;
    ['num_tables'] counts the tables, also those without rows. *)
Theorem X4_docx_tables_section
  (w : World) (document : string -> Exc DocxDocument) (p : string)
  (doc : DocxDocument)
  (Hbackend : docx_backend w = Some document)
  (Hdoc : document p = Return doc) :
  let rows := map (join " | ") (concat (tables doc)) in
  success (process_docx w p) = true
  /\ get (metadata (process_docx w p)) "num_tables" VNone
     = VInt (Z.of_nat (List.length (tables doc)))
  /\ (rows = [] ->
      content (process_docx w p) = strip (join nl (paragraphs doc)))
  /\ (rows <> [] ->
      content (process_docx w p)
      = strip (join nl (paragraphs doc) ++ nl ++ nl ++ "Tables:" ++ nl
                 ++ join nl rows)).
Proof.
  intros rows. unfold process_docx. rewrite Hbackend, Hdoc. cbn.
  rewrite table_rows_flat. fold rows.
  repeat split.
  - intros ->. reflexivity.
  - intros Hrows. destruct rows; [ congruence | reflexivity ].
Qed.

Lemma docx_tables_section_witness :
  content (process_docx Sample.full "brief.docx")
  = strip (join nl [ "Develop a service"; "for billing" ] ++ nl ++ nl
             ++ "Tables:" ++ nl ++ join nl [ "a | b"; "c | d" ]).
Proof.
  apply (X4_docx_tables_section Sample.full Sample.docx "brief.docx"
           {| paragraphs := [ "Develop a service"; "for billing" ];
              tables := [ [ [ "a"; "b" ]; [ "c"; "d" ] ] ] |}
           eq_refl eq_refl).
  discriminate.
Defined.

(** ** Aggregator *)

Lemma success_failed_partition (rs : list ProcessedInput) :
  (List.length (filter success rs) + List.length (filter failed rs)
   = List.length rs)%nat.
Proof.
  induction rs as [ | r rs IH ]; cbn; [ reflexivity | ].
  unfold failed at 1. destruct (success r); cbn; lia.
Qed.

(** X6.  In every aggregate, ['sources'] and ['types'] have one entry per
    successful input, the failed inputs making up the rest of the inputs,
    and the combined content joins two blocks per successful input, a
    delimiter line and the content. *)
Theorem X6_aggregate_sequences_are_parallel
  (w : World) (input_paths : list string) :
  let rs := map (process_input w) input_paths in
  let ok := filter success rs in
  metadata (process_multiple_inputs w input_paths)
  = [ ("sources", VList (map source_entry ok));
      ("types", VList (map type_entry ok)) ]
  /\ List.length (map source_entry ok) = List.length (map type_entry ok)
  /\ (List.length (map source_entry ok) + List.length (filter failed rs)
      = List.length input_paths)%nat
  /\ content (process_multiple_inputs w input_paths)
     = join (nl ++ nl) (blocks rs)
  /\ List.length (blocks rs) = (2 * List.length ok)%nat.
Proof.
  intros rs ok.
  split; [ apply aggregate_metadata | ].
  split; [ now rewrite !length_map | ].
  split.
  { rewrite length_map. subst ok.
    rewrite success_failed_partition. subst rs. apply length_map. }
  split; [ apply aggregate_content | ].
  unfold blocks. fold ok. clear.
  induction ok as [ | r ok IH ]; [ reflexivity | ].
  cbn [flat_map app List.length]. rewrite IH. lia.
Qed.

Lemma split_from_app_space (a : string) (sp : ascii) (b : string)
  (Hsp : isspace sp = true) :
  forall cur,
    split_from cur (a ++ String sp b)
    = (split_from cur a ++ split_from "" b)%list.
Proof.
  induction a as [ | c a IH ]; intros cur; cbn.
  - rewrite Hsp. now destruct (is_empty cur).
  - destruct (isspace c); [ destruct (is_empty cur) | ];
      cbn; now rewrite IH.
Qed.

Lemma word_count_app_space (a : string) (sp : ascii) (b : string) :
  isspace sp = true ->
  List.length (split (a ++ String sp b))
  = (List.length (split a) + List.length (split b))%nat.
Proof.
  intros Hsp. unfold split.
  now rewrite split_from_app_space, length_app.
Qed.

Lemma word_count_after_space (sp : ascii) (b : string) :
  isspace sp = true ->
  List.length (split (String sp b)) = List.length (split b).
Proof.
  intros Hsp. apply (word_count_app_space "" sp b Hsp).
Qed.

Lemma source_line_words (r : ProcessedInput) (rest : string) :
  (3 + List.length (split rest)
   <= List.length (split (source_line r ++ String (ascii_of_nat 10) rest)))%nat.
Proof.
  unfold source_line.
  set (f := format (get (metadata r) "filename" (VStr "text input"))).
  replace (("--- Source: " ++ f ++ " ---") ++ String (ascii_of_nat 10) rest)
    with ("---" ++ String " "
            ("Source:" ++ String " "
               (f ++ String " " ("---" ++ String (ascii_of_nat 10) rest)))).
  2:{ rewrite !append_assoc. reflexivity. }
  rewrite !word_count_app_space by reflexivity.
  change (List.length (split "---")) with 1%nat.
  change (List.length (split "Source:")) with 1%nat.
  lia.
Qed.

Lemma nl_cons (x : string) : nl ++ x = String (ascii_of_nat 10) x.
Proof. reflexivity. Qed.

Lemma join_cons2 (sep x y : string) (l : list string) :
  join sep (x :: y :: l) = x ++ sep ++ join sep (y :: l).
Proof. reflexivity. Qed.

Lemma two_successes_give_six_words (w : World) (input_paths : list string) :
  (2 <= List.length
          (filter success (map (process_input w) input_paths)))%nat ->
  (6 <= List.length
          (split (content (process_multiple_inputs w input_paths))))%nat.
Proof.
  intros Htwo. rewrite aggregate_content. unfold blocks.
  destruct (filter success (map (process_input w) input_paths))
    as [ | r1 [ | r2 ok ] ]; cbn in Htwo; try lia.
  cbn [flat_map app].
  rewrite !join_cons2.
  set (tail := join (nl ++ nl) (content r2 :: _)).
  rewrite !append_assoc, !nl_cons.
  pose proof (source_line_words r1
                (String (ascii_of_nat 10)
                   (content r1
                      ++ String (ascii_of_nat 10)
                           (String (ascii_of_nat 10)
                              (source_line r2
                                 ++ String (ascii_of_nat 10)
                                      (String (ascii_of_nat 10) tail))))))
    as H1.
  rewrite word_count_after_space in H1 by reflexivity.
  rewrite word_count_app_space in H1 by reflexivity.
  rewrite word_count_after_space in H1 by reflexivity.
  pose proof (source_line_words r2 (String (ascii_of_nat 10) tail)) as H2.
  lia.
Qed.

Lemma five_words_are_not_too_short (c : string) :
  (5 <= List.length (split c))%nat ->
  snd (is_relevant_prompt c) <> "Input too short (less than 5 words)".
Proof.
  intros Hwords. unfold is_relevant_prompt.
  destruct (List.length (split c) <? 5)%nat eqn:Hlt.
  { apply Nat.ltb_lt in Hlt. lia. }
  repeat match goal with
         | |- context [ if ?b then _ else _ ] => destruct b
         end; cbn; discriminate.
Qed.

(** X7.  An aggregate with two or more successful inputs has at least six
    words, whatever the inputs hold: the delimiter lines alone supply them,
    so the relevance gate never finds it too short. *)
Theorem X7_aggregate_of_two_is_never_too_short
  (w : World) (input_paths : list string)
  (Htwo : (2 <= List.length
                  (filter success (map (process_input w) input_paths)))%nat) :
  let c := content (process_multiple_inputs w input_paths) in
  (6 <= List.length (split c))%nat
  /\ snd (is_relevant_prompt c) <> "Input too short (less than 5 words)".
Proof.
  intros c.
  pose proof (two_successes_give_six_words w input_paths Htwo) as Hwords.
  fold c in Hwords.
  split; [ exact Hwords | ].
  apply five_words_are_not_too_short. lia.
Qed.

Lemma aggregate_of_two_witness :
  (6 <= List.length
          (split (content (process_multiple_inputs Sample.full
                             [ "app"; "nofile.xyz"; "tool" ]))))%nat.
Proof.
  apply (X7_aggregate_of_two_is_never_too_short Sample.full
           [ "app"; "nofile.xyz"; "tool" ]).
  cbn. lia.
Defined.


(** ** Error key *)

Lemma error_iff_failed_input (w : World) (p : string) :
  (success (process_input w p) = true /\ error (process_input w p) = None)
  \/ (success (process_input w p) = false
      /\ exists msg, error (process_input w p) = Some msg).
Proof.
  unfold process_input, process_text_file, process_image, process_pdf,
    process_docx.
  repeat match goal with
         | |- context [ if ?b then _ else _ ] => destruct b; cbn
         | |- context [ match ?o with Some _ => _ | None => _ end ] =>
             destruct o; cbn
         | |- context [ read_text w p ] => destruct (read_text w p); cbn
         | |- context [ try_except (bind (?f p) _) _ ] => destruct (f p); cbn
         | |- context [ extract_pages ?l "" ] =>
             destruct (extract_pages l ""); cbn
         end; eauto.
Qed.

(** X5.  In every result of [process_input], of an extractor and among
    the individual results of an aggregate, the key ['error'] is present
    exactly when [success] is false. *)
Theorem X5_error_message_iff_failure
  (w : World) (r : ProcessedInput) (Hex : extracted w r) :
  (success r = false <-> exists msg, error r = Some msg)
  /\ (success r = true <-> error r = None).
Proof.
  assert (H : (success r = true /\ error r = None)
              \/ (success r = false /\ exists msg, error r = Some msg)).
  { destruct Hex as [ p | text | p | p | p | p | ps rs r Hrs Hin ].
    - apply error_iff_failed_input.
    - left. split; reflexivity.
    - unfold process_text_file. destruct (read_text w p); cbn; eauto.
    - unfold process_image. destruct (ocr_backend w) as [ocr | ]; cbn; eauto.
      destruct (ocr p); cbn; eauto.
    - unfold process_pdf. destruct (pdf_backend w) as [reader | ]; cbn; eauto.
      destruct (reader p) as [pages | ]; cbn; eauto.
      destruct (extract_pages pages ""); cbn; eauto.
    - unfold process_docx.
      destruct (docx_backend w) as [document | ]; cbn; eauto.
      destruct (document p); cbn; eauto.
    - rewrite aggregate_individual_results in Hrs.
      injection Hrs as <-.
      apply in_map_iff in Hin as [p [<- _]].
      apply error_iff_failed_input. }
  destruct H as [[Hs He] | [Hs [msg He]]]; rewrite Hs, He; split; split;
    intros H; try discriminate; try reflexivity; eauto.
  destruct H as [m Hm]; discriminate.
Qed.

(** ** Pipeline *)

(** X8.  A run on one input that fails stops at the stage
    input_processing with the message of the extractor; in particular a
    text that holds a dot, a slash or a backslash and names no existing
    path fails with "File not found". *)
Theorem X8_single_input_failure_keeps_message
  (w : World) (json_dumps : Dict -> string) (output_path : string -> string)
  (e : Entropy)
  (input : string) (output_name : option string) :
  (success (process_input w input) = false ->
   exists msg,
     error (process_input w input) = Some msg
     /\ process_and_refine w json_dumps output_path e [ input ] output_name
        = failed_outcome "input_processing" msg)
  /\ (path_exists w input = false ->
      any_in [ "."; "/"; backslash ] input = true ->
      process_and_refine w json_dumps output_path e [ input ] output_name
      = failed_outcome "input_processing" "File not found").
Proof.
  split.
  - intros Hfail.
    destruct (error_iff_failed_input w input) as [[Hs _] | [_ [msg Hmsg]]];
      [ congruence | ].
    exists msg. split; [ exact Hmsg | ].
    unfold process_and_refine, process_inputs. cbn [List.length nth Nat.eqb].
    now rewrite Hfail, Hmsg.
  - intros Hex Hlike.
    unfold process_and_refine, process_inputs, process_input.
    cbn [List.length nth Nat.eqb]. now rewrite Hex, Hlike.
Qed.

(** X9.  A run on several inputs of which one fails stops at the stage
    input_processing with the message "Unknown error": the aggregate has no
    ['error'] key, and the messages of the individual results are not
    reported. *)
Theorem X9_multi_input_failure_is_unknown_error
  (w : World) (json_dumps : Dict -> string) (output_path : string -> string)
  (e : Entropy)
  (inputs : list string) (output_name : option string)
  (Hmany : List.length inputs <> 1%nat)
  (Hfail : exists p, In p inputs /\ success (process_input w p) = false) :
  process_and_refine w json_dumps output_path e inputs output_name
  = failed_outcome "input_processing" "Unknown error".
Proof.
  unfold process_and_refine, process_inputs.
  apply Nat.eqb_neq in Hmany. rewrite Hmany.
  assert (Hs : success (process_multiple_inputs w inputs) = false).
  { rewrite aggregate_success.
    destruct Hfail as [p [Hin Hp]].
    destruct (forallb success (map (process_input w) inputs)) eqn:Hall;
      [ | reflexivity ].
    rewrite forallb_forall in Hall.
    rewrite (Hall _ (in_map (process_input w) _ _ Hin)) in Hp.
    discriminate Hp. }
  rewrite Hs. reflexivity.
Qed.

(** X10.  On the aggregation path, that is for any number of inputs
    other than one, the run is rejected as too short exactly when there is
    no input at all: the empty aggregate succeeds with an empty content,
    and two inputs or more either fail or give six words or more. *)
Theorem X10_too_short_aggregate_has_no_input
  (w : World) (json_dumps : Dict -> string) (output_path : string -> string)
  (e : Entropy) (inputs : list string) (output_name : option string)
  (Hmany : List.length inputs <> 1%nat) :
  let out := process_and_refine w json_dumps output_path e inputs output_name in
  (reason out = Some "Input too short (less than 5 words)" <-> inputs = [])
  /\ (inputs = [] ->
      out = {| status := "rejected"; stage := "relevance_check";
               failure := None;
               reason := Some "Input too short (less than 5 words)";
               result := None; files := None |}).
Proof.
  cbv zeta. split; [ split | ]; [ | intros ->; reflexivity
                                | intros ->; reflexivity ].
  destruct inputs as [ | a [ | b rest ] ]; [ reflexivity | | ].
  { now contradiction Hmany. }
  intros Hreason. exfalso. revert Hreason.
  unfold process_and_refine, process_inputs.
  cbn [List.length Nat.eqb].
  destruct (success (process_multiple_inputs w (a :: b :: rest))) eqn:Hs;
    cbn [negb]; [ | discriminate ].
  assert (Hwords :
    (6 <= List.length
            (split (content (process_multiple_inputs w (a :: b :: rest)))))%nat).
  { apply two_successes_give_six_words.
    rewrite aggregate_success in Hs.
    rewrite (filter_all _ _ Hs). cbn. lia. }
  pose proof (five_words_are_not_too_short
                (content (process_multiple_inputs w (a :: b :: rest)))) as Hgate.
  destruct (is_relevant_prompt
              (content (process_multiple_inputs w (a :: b :: rest))))
    as [ok why].
  cbn [snd] in Hgate.
  destruct ok; cbn; [ discriminate | ].
  intros H. injection H as ->. apply Hgate; [ lia | reflexivity ].
Qed.


(** ** Relevance gate *)


(** ** Fallback extractor *)

Lemma prefix_app_l (a b s : string) :
  String.prefix (a ++ b) s = true -> String.prefix a s = true.
Proof.
  revert s. induction a as [ | c a IH ]; intros s;
    [ now destruct s | ].
  destruct s as [ | d s ]; cbn; [ discriminate | ].
  destruct (ascii_dec c d); [ apply IH | discriminate ].
Qed.

Lemma contains_app_l (a b s : string) :
  contains (a ++ b) s = true -> contains a s = true.
Proof.
  induction s as [ | d s IH ]; cbn [contains].
  - rewrite !orb_false_r. apply prefix_app_l.
  - intros H. apply orb_true_iff in H as [H | H].
    + apply prefix_app_l in H. now rewrite H.
    + rewrite (IH H). apply orb_true_r.
Qed.

(** X15.  The fallback extractor adds the data requirement exactly when
    the lower-cased content holds "database" or "data storage"; both hold
    "data", so a prompt with that requirement never has the domain
    "other". *)
Theorem X15_data_requirement_excludes_other
  (e : Entropy) (raw_content : string) (input_metadata : Dict) :
  let p := _fallback_extraction e raw_content input_metadata in
  ((exists r, In r (functional_requirements p) /\ category r = "data")
   <-> contains "database" (lower raw_content)
       || contains "data storage" (lower raw_content) = true)
  /\ ((exists r, In r (functional_requirements p) /\ category r = "data") ->
      domain p <> "other").
Proof.
  cbv zeta.
  assert (Hiff :
    (exists r,
        In r (functional_requirements
                (_fallback_extraction e raw_content input_metadata))
        /\ category r = "data")
    <-> contains "database" (lower raw_content)
        || contains "data storage" (lower raw_content) = true).
  { unfold _fallback_extraction. cbn [functional_requirements].
    destruct (contains "database" (lower raw_content)
              || contains "data storage" (lower raw_content));
      destruct (contains "authentication" (lower raw_content)
                || contains "login" (lower raw_content));
      cbn [app]; split; intros H; try reflexivity; try discriminate H;
      try (exists {| description := "Data persistence"; priority := HIGH;
                     category := "data" |};
           split; [ cbn; tauto | reflexivity ]);
      destruct H as [r [Hin Hcat]]; cbn in Hin;
      repeat (destruct Hin as [Hin | Hin];
              [ subst r; discriminate Hcat | ]);
      contradiction. }
  split; [ exact Hiff | ].
  intros Hreq. apply Hiff in Hreq.
  assert (Hdata : contains "data" (lower raw_content) = true).
  { apply orb_true_iff in Hreq as [H | H].
    - apply (contains_app_l "data" "base"), H.
    - apply (contains_app_l "data" " storage"), H. }
  unfold _fallback_extraction. cbn [domain].
  destruct (any_in [ "app"; "software"; "code"; "program"; "system" ] _);
    [ discriminate | ].
  destruct (any_in [ "design"; "ui"; "ux"; "interface"; "mockup" ] _);
    [ discriminate | ].
  unfold any_in. cbn [existsb]. rewrite Hdata, orb_true_r. cbn. discriminate.
Qed.

Lemma data_requirement_witness :
  domain (_fallback_extraction Sample.entropy "Keep a DATABASE of recipes" [])
  <> "other".
Proof.
  apply (X15_data_requirement_excludes_other Sample.entropy
           "Keep a DATABASE of recipes" []).
  eexists. split; [ left; reflexivity | reflexivity ].
Defined.

Lemma substring_length (n : nat) (s : string) :
  String.length (String.substring 0 n s) = Nat.min n (String.length s).
Proof.
  revert s. induction n as [ | n IH ]; intros s; destruct s as [ | c s ];
    cbn; try reflexivity.
  now rewrite IH.
Qed.

Lemma substring_prefix (n : nat) (s : string) :
  String.prefix (String.substring 0 n s) s = true.
Proof.
  revert s. induction n as [ | n IH ]; intros s; destruct s as [ | c s ];
    cbn; try reflexivity.
  destruct (ascii_dec c c); [ apply IH | congruence ].
Qed.

Lemma append_length (a b : string) :
  String.length (a ++ b) = (String.length a + String.length b)%nat.
Proof. induction a as [ | c a IH ]; cbn; [ reflexivity | now rewrite IH ]. Qed.



Lemma prefix_app_self (a b : string) : String.prefix a (a ++ b) = true.
Proof.
  induction a as [ | c a IH ]; [ now destruct b | ].
  cbn. destruct (ascii_dec c c); [ exact IH | congruence ].
Qed.

Lemma upper_app (a b : string) : upper (a ++ b) = upper a ++ upper b.
Proof. apply map_chars_app. Qed.

(** X17.  The identifier starts with "PROMPT_", holds no lower-case
    letter and has at most 15 characters, exactly 15 when the hexadecimal
    form of the UUID has 8 characters or more; the timestamp is the instant
    read. *)
Theorem X17_prompt_id_shape
  (e : Entropy) (raw_content : string) (input_metadata : Dict) :
  let p := _fallback_extraction e raw_content input_metadata in
  String.prefix "PROMPT_" (prompt_id p) = true
  /\ upper (prompt_id p) = prompt_id p
  /\ (String.length (prompt_id p) <= 15)%nat
  /\ ((8 <= String.length (uuid4_hex e))%nat ->
      String.length (prompt_id p) = 15%nat)
  /\ timestamp p = now_isoformat e.
Proof.
  cbv zeta. unfold _fallback_extraction. cbn [prompt_id timestamp].
  assert (Hlen : String.length ("PROMPT_" ++ upper (take 8 (uuid4_hex e)))
                 = (7 + Nat.min 8 (String.length (uuid4_hex e)))%nat).
  { rewrite append_length. unfold upper, take.
    now rewrite map_chars_length, substring_length. }
  split; [ apply prefix_app_self | ].
  split; [ rewrite upper_app, upper_idem; reflexivity | ].
  rewrite Hlen. repeat split; lia.
Qed.

Lemma prompt_id_witness :
  String.length (prompt_id (_fallback_extraction Sample.entropy "x" []))
  = 15%nat.
Proof.
  destruct (X17_prompt_id_shape Sample.entropy "x" [])
    as (_ & _ & _ & Hlen & _).
  apply Hlen. cbn. lia.
Defined.

(** ** Metadata handed to the refiner *)

Lemma process_input_declares_no_type (w : World) (p : string) (d : PyVal) :
  get (metadata (process_input w p)) "type" d = d.
Proof.
  unfold process_input, process_text_file, process_image, process_pdf,
    process_docx.
  repeat match goal with
         | |- context [ if ?b then _ else _ ] => destruct b; cbn
         | |- context [ match ?o with Some _ => _ | None => _ end ] =>
             destruct o; cbn
         | |- context [ read_text w p ] => destruct (read_text w p); cbn
         | |- context [ try_except (bind (?f p) _) _ ] => destruct (f p); cbn
         | |- context [ extract_pages ?l "" ] =>
             destruct (extract_pages l ""); cbn
         end; reflexivity.
Qed.

(** X12.  The metadata of a processed input, single or aggregate, never
    has the key ['type']; the derivation of [_create_refined_prompt]
    applied to it gives [[TEXT]] for every input, also for a PDF or an
    image. *)
Theorem X12_processed_metadata_declares_no_type
  (w : World) (inputs : list string) :
  let processed := process_inputs w inputs in
  (forall d, get (metadata processed) "type" d = d)
  /\ _create_refined_prompt_input_types (metadata processed)
     = Return [ TEXT ].
Proof.
  intros processed.
  assert (H : forall d, get (metadata processed) "type" d = d).
  { intros d. subst processed. unfold process_inputs.
    destruct (List.length inputs =? 1)%nat.
    - apply process_input_declares_no_type.
    - rewrite aggregate_metadata. reflexivity. }
  split; [ exact H | ].
  unfold _create_refined_prompt_input_types. now rewrite H.
Qed.

(** ** Markdown of the fallback prompt *)

(** X18.  The Markdown of a prompt of the fallback extractor has the six
    sections header, core intent, requirements, ambiguities, assumptions
    and footer, and is the text given here line by line, with the
    confidence printed as 0.30. *)
Theorem X18_fallback_markdown_text
  (e : Entropy) (raw_content : string) (input_metadata : Dict) :
  let p := _fallback_extraction e raw_content input_metadata in
  map title (markdown_sections p)
  = [ "Header"; "Core Intent"; "Functional Requirements";
      "Ambiguities Detected"; "Assumptions Made"; "Footer" ]
  /\ to_markdown p
     = unlines
         (app
            [ "# Refined Prompt: " ++ prompt_id p;
              "";
              "## Core Intent";
              "**Domain:** " ++ domain p;
              "**Summary:** " ++ core_intent p;
              "";
              raw_content;
              "";
              "## Functional Requirements" ]
            (app
               (map requirement_line (functional_requirements p))
               [ "";
                 ambiguities_heading;
                 "- Automatic extraction - may be incomplete";
                 "";
                 "## Assumptions Made";
                 "- Used rule-based extraction";
                 "";
                 "---";
                 "*Confidence Score: 0.30 | Generated: " ++ now_isoformat e
                   ++ "*" ])).
Proof.
  intros p. split; [ reflexivity | ].
  rewrite markdown_layout.
  unfold markdown_of_sections, markdown_sections, all_sections.
  cbn [filter present nonempty technical_constraints expected_outputs
         success_criteria ambiguities assumptions_made p
         _fallback_extraction map lines concat app].
  reflexivity.
Qed.

(** X19.  The Markdown does not show the input types, the background
    context or the additional notes; nor the deliverable format when there
    is no expected output or when the format is the empty string. *)
Theorem X19_markdown_leaves_fields_out
  (p : RefinedPrompt) (its : list InputType)
  (context notes fmt : option string) :
  let q :=
    {| prompt_id := prompt_id p;
       timestamp := timestamp p;
       input_types := its;
       core_intent := core_intent p;
       detailed_description := detailed_description p;
       domain := domain p;
       functional_requirements := functional_requirements p;
       technical_constraints := technical_constraints p;
       expected_outputs := expected_outputs p;
       deliverable_format := deliverable_format p;
       background_context := context;
       success_criteria := success_criteria p;
       additional_notes := notes;
       confidence_score := confidence_score p;
       ambiguities := ambiguities p;
       assumptions_made := assumptions_made p |} in
  let q' :=
    {| prompt_id := prompt_id p;
       timestamp := timestamp p;
       input_types := its;
       core_intent := core_intent p;
       detailed_description := detailed_description p;
       domain := domain p;
       functional_requirements := functional_requirements p;
       technical_constraints := technical_constraints p;
       expected_outputs := expected_outputs p;
       deliverable_format := fmt;
       background_context := context;
       success_criteria := success_criteria p;
       additional_notes := notes;
       confidence_score := confidence_score p;
       ambiguities := ambiguities p;
       assumptions_made := assumptions_made p |} in
  to_markdown q = to_markdown p
  /\ (expected_outputs p = [] -> to_markdown q' = to_markdown p)
  /\ (deliverable_format p = Some "" ->
      fmt = None -> to_markdown q' = to_markdown p).
Proof.
  intros q q'. split; [ reflexivity | ]. split.
  - intros Hout. unfold to_markdown. cbn. now rewrite Hout.
  - intros Hfmt ->. unfold to_markdown. cbn. rewrite Hfmt. cbn.
    now destruct (expected_outputs p).
Qed.


(** ** JSON object *)

Lemma first_some_none (l : list (option string)) :
  (forall x, In x l -> x = None) -> first_some l = None.
Proof.
  induction l as [ | x l IH ]; intros H; [ reflexivity | ].
  rewrite (H x (or_introl eq_refl)). cbn. apply IH.
  intros y Hy. apply H. now right.
Qed.

Lemma not_serializable_strings (l : list string) :
  not_serializable (jstrings l) = None.
Proof.
  unfold jstrings. cbn. apply first_some_none. intros x Hx.
  apply in_map_iff in Hx as [v [<- Hv]].
  apply in_map_iff in Hv as [s [<- _]]. reflexivity.
Qed.

Lemma not_serializable_opt (o : option string) :
  not_serializable (jopt o) = None.
Proof. now destruct o. Qed.

Lemma not_serializable_mapped {A : Type} (f : A -> JVal) (l : list A) :
  (forall a, not_serializable (f a) = None) ->
  not_serializable (JList (map f l)) = None.
Proof.
  intros H. cbn. apply first_some_none. intros x Hx.
  apply in_map_iff in Hx as [v [<- Hv]].
  apply in_map_iff in Hv as [a [<- _]]. apply H.
Qed.

Lemma not_serializable_dict (fields : list (string * JVal)) :
  not_serializable (JDict fields)
  = first_some (map (fun kv => not_serializable (snd kv)) fields).
Proof. reflexivity. Qed.

Lemma with_priority_values (reqs : list Requirement) :
  map_exc with_priority_value (map asdict_requirement reqs)
  = Return (map json_requirement reqs).
Proof.
  induction reqs as [ | req reqs IH ]; cbn; [ reflexivity | ].
  now rewrite IH.
Qed.

(** X20.  [to_json] always returns: the object it encodes has the sixteen
    fields of the class in order, the input types and the priority of every
    requirement as their literal strings, and nothing [json.dumps] refuses.
    Encoding the result of [asdict] directly would raise as soon as there
    is an input type or a requirement. *)
Theorem X20_to_json_encodes_enum_values
  (dumps : JVal -> string) (p : RefinedPrompt) :
  to_json_data p = Return (json_object p)
  /\ not_serializable (JDict (json_object p)) = None
  /\ to_json dumps p = Return (dumps (JDict (json_object p)))
  /\ (input_types p <> [] ->
      json_dumps_indent dumps (JDict (asdict p))
      = Raise "Object of type InputType is not JSON serializable")
  /\ (input_types p = [] -> functional_requirements p <> [] ->
      json_dumps_indent dumps (JDict (asdict p))
      = Raise "Object of type PriorityLevel is not JSON serializable").
Proof.
  assert (Hdata : to_json_data p = Return (json_object p)).
  { unfold to_json_data, asdict. cbn.
    rewrite with_priority_values. cbn. unfold json_object, jstrings.
    now rewrite map_map. }
  assert (Hser : not_serializable (JDict (json_object p)) = None).
  { unfold json_object. rewrite not_serializable_dict.
    apply first_some_none. intros x Hx. cbn [map In snd] in Hx.
    repeat (destruct Hx as [<- | Hx];
            [ first [ reflexivity
                    | apply not_serializable_strings
                    | apply not_serializable_opt
                    | apply not_serializable_mapped; intros; reflexivity ]
            | ]).
    contradiction. }
  split; [ exact Hdata | ]. split; [ exact Hser | ].
  split.
  { unfold to_json. rewrite Hdata. cbn [bind].
    unfold json_dumps_indent. now rewrite Hser. }
  split.
  - intros Hits. unfold json_dumps_indent, asdict.
    destruct (input_types p); [ congruence | reflexivity ].
  - intros Hits Hreqs. unfold json_dumps_indent, asdict. rewrite Hits.
    destruct (functional_requirements p); [ congruence | reflexivity ].
Qed.

Lemma to_json_witness :
  json_dumps_indent (fun _ => "{}") (JDict (asdict Sample.prompt))
  = Raise "Object of type InputType is not JSON serializable".
Proof.
  apply (X20_to_json_encodes_enum_values (fun _ => "{}") Sample.prompt).
  discriminate.
Defined.

(** ** Configuration files *)


Section ConfigFacts.

Variable w : World.
Variables yaml_safe_load json_load : string -> Exc Config.
Variable run : nat -> list string -> option string -> Exc Outcome.

Lemma process_projects_returned (projects : list Config) :
  forall i acc results,
    process_projects run i projects acc = Return results ->
    exists outs,
      results = (acc ++ combine projects outs)%list
      /\ List.length outs = List.length projects
      /\ forall k project out,
           nth_error projects k = Some project ->
           nth_error outs k = Some out ->
           run (i + k) (project_inputs project) (project_output_name project)
           = Return out.
Proof.
  induction projects as [ | project projects IH ]; intros i acc results H.
  - cbn in H. injection H as <-. exists []. cbn.
    rewrite app_nil_r. repeat split. intros [ | k ]; discriminate.
  - cbn in H.
    destruct (run i (project_inputs project) (project_output_name project))
      as [ out | msg ] eqn:Hrun; cbn in H; [ | discriminate ].
    apply IH in H as (outs & -> & Hlen & Hnth).
    exists (out :: outs). cbn. rewrite <- app_assoc. cbn.
    repeat split; [ now rewrite Hlen | ].
    intros [ | k ] q o Hq Ho; cbn in Hq, Ho.
    + injection Hq as <-. injection Ho as <-. now rewrite Nat.add_0_r.
    + rewrite Nat.add_succ_r. apply (Hnth k q o Hq Ho).
Qed.

Lemma process_projects_aborts (pre : list Config) :
  forall i acc project post msg,
    (forall k q, nth_error pre k = Some q ->
                 exists out,
                   run (i + k) (project_inputs q) (project_output_name q)
                   = Return out) ->
    run (i + List.length pre) (project_inputs project)
        (project_output_name project) = Raise msg ->
    process_projects run i (pre ++ project :: post) acc = Raise msg.
Proof.
  induction pre as [ | q pre IH ]; intros i acc project post msg Hpre Hrun.
  - cbn in Hrun |- *. rewrite Nat.add_0_r in Hrun. now rewrite Hrun.
  - cbn. destruct (Hpre 0%nat q eq_refl) as [out Hout].
    rewrite Nat.add_0_r in Hout. rewrite Hout. cbn.
    apply IH.
    + intros k q' Hq'. specialize (Hpre (S k) q' Hq').
      now rewrite Nat.add_succ_r in Hpre.
    + cbn in Hrun. now rewrite Nat.add_succ_r in Hrun.
Qed.

End ConfigFacts.



(** ** Terminal readers *)

Lemma get_text_loop_done (stdin lines : list string) :
  get_text_loop stdin lines 1 = (Return (join nl lines), stdin).
Proof. now destruct stdin. Qed.

Lemma get_text_loop_reads (pre : list string) :
  forall lines blank post,
    Forall (fun l => strip l <> "") pre ->
    strip blank = "" ->
    get_text_loop (pre ++ blank :: post) lines 0
    = (Return (join nl (lines ++ pre)), post).
Proof.
  induction pre as [ | l pre IH ]; intros lines blank post Hpre Hblank.
  - cbn. rewrite Hblank. cbn. rewrite get_text_loop_done.
    now rewrite app_nil_r.
  - inversion Hpre as [ | ? ? Hl Hrest ]; subst.
    cbn. apply String.eqb_neq in Hl. rewrite Hl.
    rewrite (IH _ blank post Hrest Hblank). now rewrite <- app_assoc.
Qed.

Lemma get_text_loop_eof (stdin : list string) :
  forall lines,
    Forall (fun l => strip l <> "") stdin ->
    get_text_loop stdin lines 0 = (Raise eof, []).
Proof.
  induction stdin as [ | l stdin IH ]; intros lines H; [ reflexivity | ].
  inversion H as [ | ? ? Hl Hrest ]; subst.
  cbn. apply String.eqb_neq in Hl. rewrite Hl. now apply IH.
Qed.



Section ReaderFacts.

Variable w : World.
Variable isabs : string -> bool.
Variable abspath : string -> string.

Lemma is_empty_false (s : string) : s <> "" -> is_empty s = false.
Proof. destruct s; [ congruence | reflexivity ]. Qed.

Lemma get_multiple_files_loop_reads (pre : list string) :
  forall files blank post,
    Forall (fun l => strip l <> "") pre ->
    strip blank = "" ->
    get_multiple_files_loop w isabs abspath (pre ++ blank :: post) files
    = (Return
         (files
            ++ filter (path_exists w)
                 (map (fun l => absolute isabs abspath (strip l)) pre))%list,
       post).
Proof.
  induction pre as [ | l pre IH ]; intros files blank post Hpre Hblank.
  - cbn. rewrite Hblank. cbn. now rewrite app_nil_r.
  - inversion Hpre as [ | ? ? Hl Hrest ]; subst.
    cbn. rewrite (is_empty_false _ Hl).
    destruct (path_exists w (absolute isabs abspath (strip l)));
      rewrite (IH _ blank post Hrest Hblank); [ | reflexivity ].
    now rewrite <- app_assoc.
Qed.

Lemma get_file_input_result (stdin : list string) :
  forall r rest,
    get_file_input w isabs abspath stdin = (r, rest) ->
    match r with
    | Return (Some p) =>
        path_exists w p = true
        /\ exists line,
             In line stdin /\ p = absolute isabs abspath (strip line)
    | Return None =>
        exists line, In line stdin /\ lower (strip line) = "cancel"
    | Raise msg =>
        msg = eof /\ rest = []
        /\ Forall (fun line =>
                     lower (strip line) <> "cancel"
                     /\ path_exists w (absolute isabs abspath (strip line))
                        = false) stdin
    end.
Proof.
  induction stdin as [ | line stdin IH ]; intros r rest H.
  - cbn in H. injection H as <- <-. repeat split. constructor.
  - cbn in H.
    destruct (String.eqb_spec (lower (strip line)) "cancel") as [Hc | Hc].
    { injection H as <- <-. exists line. split; [ now left | exact Hc ]. }
    destruct (path_exists w (absolute isabs abspath (strip line))) eqn:Hex.
    { injection H as <- <-. split; [ exact Hex | ].
      exists line. split; [ now left | reflexivity ]. }
    specialize (IH r rest H).
    destruct r as [ [ p | ] | msg ].
    + destruct IH as (Hp & l & Hin & ->). split; [ exact Hp | ].
      exists l. split; [ now right | reflexivity ].
    + destruct IH as (l & Hin & Hl). exists l. split; [ now right | exact Hl ].
    + destruct IH as (-> & -> & Hall). repeat split.
      constructor; [ now split | exact Hall ].
Qed.

End ReaderFacts.



(** ** Runs of the further properties on the sample environments *)

Lemma extracted_content_witness :
  strip (content (process_input Sample.full "scan.png"))
  = content (process_input Sample.full "scan.png").
Proof.
  apply (X1_extracted_content_is_trimmed Sample.full).
  apply extracted_input.
Defined.


Lemma error_message_witness :
  exists msg, error (process_input Sample.full "nofile.xyz") = Some msg.
Proof.
  destruct (X5_error_message_iff_failure Sample.full
              (process_input Sample.full "nofile.xyz")
              (extracted_input Sample.full "nofile.xyz")) as [[Hmsg _] _].
  apply Hmsg. reflexivity.
Defined.

Lemma single_input_failure_witness :
  process_and_refine Sample.full Sample.dumps Demo.output_path Sample.entropy
                     [ "Build a login app." ] None
  = failed_outcome "input_processing" "File not found".
Proof.
  destruct (X8_single_input_failure_keeps_message
              Sample.full Sample.dumps Demo.output_path Sample.entropy
              "Build a login app." None) as [_ Hdot].
  apply Hdot; reflexivity.
Defined.

Lemma multi_input_failure_witness :
  process_and_refine Sample.full Sample.dumps Demo.output_path Sample.entropy
                     [ "notes.txt"; "nofile.xyz" ] None
  = failed_outcome "input_processing" "Unknown error".
Proof.
  apply (X9_multi_input_failure_is_unknown_error
           Sample.full Sample.dumps Demo.output_path Sample.entropy
           [ "notes.txt"; "nofile.xyz" ] None).
  - cbn. lia.
  - exists "nofile.xyz". split; [ cbn; tauto | reflexivity ].
Defined.



Lemma markdown_fields_witness :
  to_markdown
    {| prompt_id := prompt_id Sample.prompt;
       timestamp := timestamp Sample.prompt;
       input_types := [ PDF ];
       core_intent := core_intent Sample.prompt;
       detailed_description := detailed_description Sample.prompt;
       domain := domain Sample.prompt;
       functional_requirements := functional_requirements Sample.prompt;
       technical_constraints := technical_constraints Sample.prompt;
       expected_outputs := expected_outputs Sample.prompt;
       deliverable_format := Some "code";
       background_context := Some "for the sales team";
       success_criteria := success_criteria Sample.prompt;
       additional_notes := None;
       confidence_score := confidence_score Sample.prompt;
       ambiguities := ambiguities Sample.prompt;
       assumptions_made := assumptions_made Sample.prompt |}
  = to_markdown Sample.prompt.
Proof.
  destruct (X19_markdown_leaves_fields_out
              Sample.prompt [ PDF ] (Some "for the sales team") None
              (Some "code")) as (_ & Hempty & _).
  apply Hempty. reflexivity.
Defined.






Lemma too_short_aggregate_witness :
  reason (process_and_refine Sample.full Sample.dumps Demo.output_path
                             Sample.entropy [] None)
  = Some "Input too short (less than 5 words)".
Proof.
  apply (X10_too_short_aggregate_has_no_input
           Sample.full Sample.dumps Demo.output_path Sample.entropy [] None).
  - cbn. lia.
  - reflexivity.
Defined.
